(** * ChemBond Tutor API: a shallow embedding of [main.py]

    The three request handlers ([chat], [generate_quiz], [analyze_molecule]),
    the formula normalisation and the Lewis-diagram renderer
    ([make_lewis_svg]) are transcribed as Rocq functions.

    Conventions of the embedding:
    - a Python [str] is the list of its code points ([N]); [len] is the
      length of that list;
    - [bytes] is a list of octets ([N], each below 256);
    - a Python [int] is a [Z];
    - an operation that can raise returns [option] ([None] is the exception);
    - the Unicode case tables behind [str.upper] / [str.lower] and the random
      source behind [random.shuffle] are interfaces (type classes) with the
      laws the handlers rely on. *)

From Stdlib Require Import List NArith ZArith Lia Bool String Ascii.
From Stdlib Require Import QArith Permutation DecimalString.
Import ListNotations.

Local Close Scope Q_scope.
Local Open Scope N_scope.

(** ** Text and octets *)

Definition str := list N.
Definition bytes := list N.

(** [len(s)] as a Python integer. *)
Definition len {A} (l : list A) : Z := Z.of_nat (List.length l).

(** Code points U+D800..U+DFFF are surrogates: a [str] can hold one, UTF-8
    cannot encode it. *)
Definition is_surrogate (c : N) : bool := (0xD800 <=? c) && (c <=? 0xDFFF).

Definition is_scalar (c : N) : bool := (c <=? 0x10FFFF) && negb (is_surrogate c).

(** Well-formed Unicode text: every code point is a scalar value. *)
Definition valid_text (s : str) : bool := forallb is_scalar s.

Definition is_ascii (c : N) : bool := c <? 0x80.

(** *** [str.encode("utf-8")] *)

Definition utf8_char (c : N) : option bytes :=
  if c <? 0x80 then Some [c]
  else if c <? 0x800 then Some [0xC0 + c / 64; 0x80 + c mod 64]
  else if is_surrogate c then None
  else if c <? 0x10000 then
    Some [0xE0 + c / 4096; 0x80 + (c / 64) mod 64; 0x80 + c mod 64]
  else if c <? 0x110000 then
    Some [0xF0 + c / 262144; 0x80 + (c / 4096) mod 64;
          0x80 + (c / 64) mod 64; 0x80 + c mod 64]
  else None.

Fixpoint encode_utf8 (s : str) : option bytes :=
  match s with
  | [] => Some []
  | c :: t =>
    match utf8_char c, encode_utf8 t with
    | Some b, Some r => Some (b ++ r)
    | _, _ => None
    end
  end.

(** *** A UTF-8 decoder (RFC 3629), used to read artifacts back *)

Definition is_cont (b : N) : bool := (0x80 <=? b) && (b <? 0xC0).

Definition decoded (lo hi c : N) : option N :=
  if (lo <=? c) && (c <? hi) && negb (is_surrogate c) then Some c else None.

Definition cons_opt {A} (x : option A) (r : option (list A)) : option (list A) :=
  match x, r with
  | Some a, Some l => Some (a :: l)
  | _, _ => None
  end.

Fixpoint decode_utf8 (bs : bytes) : option str :=
  match bs with
  | [] => Some []
  | b0 :: r0 =>
    if b0 <? 0x80 then cons_opt (Some b0) (decode_utf8 r0)
    else if b0 <? 0xC0 then None
    else if b0 <? 0xE0 then
      match r0 with
      | b1 :: r1 =>
        if is_cont b1
        then cons_opt (decoded 0x80 0x800 ((b0 - 0xC0) * 64 + (b1 - 0x80)))
                      (decode_utf8 r1)
        else None
      | _ => None
      end
    else if b0 <? 0xF0 then
      match r0 with
      | b1 :: b2 :: r2 =>
        if is_cont b1 && is_cont b2
        then cons_opt (decoded 0x800 0x10000
                         ((b0 - 0xE0) * 4096 + (b1 - 0x80) * 64 + (b2 - 0x80)))
                      (decode_utf8 r2)
        else None
      | _ => None
      end
    else if b0 <? 0xF8 then
      match r0 with
      | b1 :: b2 :: b3 :: r3 =>
        if is_cont b1 && is_cont b2 && is_cont b3
        then cons_opt (decoded 0x10000 0x110000
                         ((b0 - 0xF0) * 262144 + (b1 - 0x80) * 4096
                          + (b2 - 0x80) * 64 + (b3 - 0x80)))
                      (decode_utf8 r3)
        else None
      | _ => None
      end
    else None
  end.

(** *** String literals

    The constants of [main.py] are written as Rocq string literals (the
    UTF-8 octets of the text) and read back as code points; the escape
    [\n] of a Python literal stands for U+000A. *)

Definition octets (s : string) : bytes := map N_of_ascii (list_ascii_of_string s).

Fixpoint unescape (s : str) : str :=
  match s with
  | [] => []
  | c :: r =>
    match r with
    | d :: r' =>
      if (c =? 92) && (d =? 110) then 10 :: unescape r' else c :: unescape r
    | [] => [c]
    end
  end.

Definition py (s : string) : str :=
  match decode_utf8 (octets s) with
  | Some t => unescape t
  | None => []
  end.

(** *** [base64.b64encode] (RFC 4648, standard alphabet, [=] padding) *)

Definition b64_char (s : N) : N :=
  if s <? 26 then 65 + s
  else if s <? 52 then 97 + (s - 26)
  else if s <? 62 then 48 + (s - 52)
  else if s =? 62 then 43
  else 47.

Definition pad : N := 61.

Fixpoint b64encode (bs : bytes) : str :=
  match bs with
  | [] => []
  | [a] => [b64_char (a / 4); b64_char ((a mod 4) * 16); pad; pad]
  | [a; b] =>
    [b64_char (a / 4); b64_char ((a mod 4) * 16 + b / 16);
     b64_char ((b mod 16) * 4); pad]
  | a :: b :: c :: r =>
    b64_char (a / 4) :: b64_char ((a mod 4) * 16 + b / 16)
    :: b64_char ((b mod 16) * 4 + c / 64) :: b64_char (c mod 64)
    :: b64encode r
  end.

(** The matching decoder. *)

Definition b64_val (c : N) : option N :=
  if (65 <=? c) && (c <=? 90) then Some (c - 65)
  else if (97 <=? c) && (c <=? 122) then Some (c - 71)
  else if (48 <=? c) && (c <=? 57) then Some (c + 4)
  else if c =? 43 then Some 62
  else if c =? 47 then Some 63
  else None.

Fixpoint b64decode (s : str) : option bytes :=
  match s with
  | [] => Some []
  | c0 :: c1 :: c2 :: c3 :: r =>
    match b64_val c0, b64_val c1 with
    | Some s0, Some s1 =>
      if c2 =? pad then
        match r with
        | [] => if c3 =? pad then Some [s0 * 4 + s1 / 16] else None
        | _ => None
        end
      else
        match b64_val c2 with
        | Some s2 =>
          if c3 =? pad then
            match r with
            | [] => Some [s0 * 4 + s1 / 16; (s1 mod 16) * 16 + s2 / 4]
            | _ => None
            end
          else
            match b64_val c3, b64decode r with
            | Some s3, Some t =>
              Some (s0 * 4 + s1 / 16 :: (s1 mod 16) * 16 + s2 / 4
                    :: (s2 mod 4) * 64 + s3 :: t)
            | _, _ => None
            end
        | None => None
        end
    | _, _ => None
    end
  | _ => None
  end.

(** ** The string operations of Python the handlers use *)

Fixpoint str_eqb (a b : str) : bool :=
  match a, b with
  | [], [] => true
  | x :: a', y :: b' => (x =? y) && str_eqb a' b'
  | _, _ => false
  end.

(** [str(n)] and an f-string field [{n}] for an integer. *)
Definition str_of_int (z : Z) : str := octets (NilZero.string_of_int (Z.to_int z)).

(** [{x}] for a float with one decimal digit, as every bond angle of the
    table is: [repr] prints the integer part, a point and that digit. *)
Definition str_of_float (q : Q) : str :=
  let tenths := (Qnum q * 10 / Zpos (Qden q))%Z in
  str_of_int (tenths / 10) ++ py "." ++ str_of_int (tenths mod 10).

(** Whitespace as [str.strip()] sees it. *)
Definition is_space (c : N) : bool :=
  ((9 <=? c) && (c <=? 13)) || ((28 <=? c) && (c <=? 32))
  || (c =? 0x85) || (c =? 0xA0) || (c =? 0x1680)
  || ((0x2000 <=? c) && (c <=? 0x200A))
  || (c =? 0x2028) || (c =? 0x2029) || (c =? 0x202F) || (c =? 0x205F)
  || (c =? 0x3000).

Fixpoint lstrip (s : str) : str :=
  match s with
  | [] => []
  | c :: r => if is_space c then lstrip r else s
  end.

Definition rstrip (s : str) : str := rev (lstrip (rev s)).

Definition strip (s : str) : str := rstrip (lstrip s).

(** [s.replace(old, new)] for a one-character [old]. *)
Definition replace_char (old : N) (new : str) (s : str) : str :=
  flat_map (fun c => if c =? old then new else [c]) s.

(** [s.split(sep)] for a one-character [sep]: never the empty list. *)
Fixpoint split_on (sep : N) (s : str) : list str :=
  match s with
  | [] => [[]]
  | c :: r =>
    if c =? sep then [] :: split_on sep r
    else match split_on sep r with
         | l :: ls => (c :: l) :: ls
         | [] => [[c]]
         end
  end.

Fixpoint starts_with (p s : str) : bool :=
  match p, s with
  | [], _ => true
  | a :: p', b :: s' => (a =? b) && starts_with p' s'
  | _ :: _, [] => false
  end.

(** [needle in hay]. *)
Fixpoint str_in (needle hay : str) : bool :=
  starts_with needle hay
  || match hay with
     | [] => false
     | _ :: r => str_in needle r
     end.

(** [max(xs)]: raises [ValueError] on an empty sequence. *)
Definition py_max (xs : list Z) : option Z :=
  match xs with
  | [] => None
  | x :: r => Some (fold_left Z.max r x)
  end.

Fixpoint enumerate_from {A} (i : Z) (l : list A) : list (Z * A) :=
  match l with
  | [] => []
  | x :: r => (i, x) :: enumerate_from (i + 1)%Z r
  end.

Definition enumerate {A} (l : list A) : list (Z * A) := enumerate_from 0%Z l.

(** A dict literal with its insertion order; [dict_get] is [d.get(k)]. *)
Fixpoint dict_get {V} (d : list (str * V)) (k : str) : option V :=
  match d with
  | [] => None
  | (k', v) :: r => if str_eqb k' k then Some v else dict_get r k
  end.

Notation "x <- a ;; b" :=
  (match a with Some x => b | None => None end)
  (at level 61, a at next level, right associativity).

(** ** Case mapping

    [str.upper] and [str.lower] follow the Unicode tables of the
    interpreter.  The handlers rely on what they do to ASCII text, and on
    [upper] turning well-formed text into well-formed text. *)

Definition ascii_upper (c : N) : N := if (97 <=? c) && (c <=? 122) then c - 32 else c.
Definition ascii_lower (c : N) : N := if (65 <=? c) && (c <=? 90) then c + 32 else c.

Class Casing := {
  upper : str -> str;
  lower : str -> str;
  upper_ascii : forall s, forallb is_ascii s = true -> upper s = map ascii_upper s;
  lower_ascii : forall s, forallb is_ascii s = true -> lower s = map ascii_lower s;
  upper_valid : forall s, valid_text s = true -> valid_text (upper s) = true
}.

(** The case mapping that leaves every code point outside ASCII alone. *)
#[export] Instance ascii_casing : Casing.
Proof.
  refine {| upper := map ascii_upper; lower := map ascii_lower |}.
  - reflexivity.
  - reflexivity.
  - induction s as [|c s IH]; simpl; [reflexivity|].
    intros H. apply andb_true_iff in H. destruct H as [Hc Hs].
    rewrite (IH Hs), andb_true_r.
    unfold ascii_upper. destruct ((97 <=? c) && (c <=? 122)) eqn:E; [|exact Hc].
    apply andb_true_iff in E. destruct E as [E1 E2].
    apply N.leb_le in E1, E2.
    unfold is_scalar, is_surrogate.
    apply andb_true_iff; split.
    + apply N.leb_le. lia.
    + apply negb_true_iff, andb_false_iff. left. apply N.leb_gt. lia.
Defined.

(** ** Data: the molecule table *)

Module DB.
Record entry := {
  name : str;
  bond_type : str;
  bond_angle : option Q;
  single_bonds : Z;
  double_bonds : Z;
  shape : str;
  lewis : str;
  lewis_text : str;
  explanation : str;
  lewis_ascii : str
}.
End DB.

(** [MOLECULE_DB], in the insertion order of the dict literal.  Every record
    carries all ten keys, so no [.get] of the handlers takes its default. *)
Definition MOLECULE_DB : list (str * DB.entry) := Eval vm_compute in
  [(py "H2O",
     {| DB.name := py "Water";
        DB.bond_type := py "Polar covalent";
        DB.bond_angle := Some 104.5%Q;
        DB.single_bonds := 2;
        DB.double_bonds := 0;
        DB.shape := py "Bent (V-shaped)";
        DB.lewis := py "H–O–H with two lone pairs on oxygen";
        DB.lewis_text := py "Lewis Structure of H2O: Oxygen in the center with two single bonds to H and two lone pairs on O.";
        DB.explanation := py "Oxygen forms two polar covalent bonds with hydrogen. Lone pairs on O push bonds, giving a bent shape and polarity.";
        DB.lewis_ascii := py "H :O: H\n   .. .." |});
   (py "CO2",
     {| DB.name := py "Carbon dioxide";
        DB.bond_type := py "Non‑polar covalent (double bonds)";
        DB.bond_angle := Some 180.0%Q;
        DB.single_bonds := 0;
        DB.double_bonds := 2;
        DB.shape := py "Linear";
        DB.lewis := py "O=C=O";
        DB.lewis_text := py "Lewis Structure of CO2: Carbon in center with double bonds to two oxygens (O=C=O).";
        DB.explanation := py "Two equal C=O bonds arranged linearly cancel dipoles, so the molecule is non‑polar.";
        DB.lewis_ascii := py "O = C = O" |});
   (py "CH4",
     {| DB.name := py "Methane";
        DB.bond_type := py "Non‑polar covalent";
        DB.bond_angle := Some 109.5%Q;
        DB.single_bonds := 4;
        DB.double_bonds := 0;
        DB.shape := py "Tetrahedral";
        DB.lewis := py "Carbon in center with four single bonds to H";
        DB.lewis_text := py "Lewis Structure of CH4: Carbon in center with four single bonds to hydrogens (tetrahedral).";
        DB.explanation := py "Four equivalent C–H bonds arranged tetrahedrally make CH4 non‑polar overall.";
        DB.lewis_ascii := py "    H\n    |\nH — C — H\n    |\n    H" |});
   (py "NH3",
     {| DB.name := py "Ammonia";
        DB.bond_type := py "Polar covalent";
        DB.bond_angle := Some 107.0%Q;
        DB.single_bonds := 3;
        DB.double_bonds := 0;
        DB.shape := py "Trigonal pyramidal";
        DB.lewis := py "N with three single bonds to H and one lone pair";
        DB.lewis_text := py "Lewis Structure of NH3: Nitrogen in center with three single bonds to H and one lone pair on N.";
        DB.explanation := py "Lone pair on nitrogen compresses H–N–H angles; N–H bonds are polar making NH3 polar.";
        DB.lewis_ascii := py "   H\n   |\nH–N: \n   |\n   H" |});
   (py "NaCl",
     {| DB.name := py "Sodium chloride";
        DB.bond_type := py "Ionic";
        DB.bond_angle := None;
        DB.single_bonds := 0;
        DB.double_bonds := 0;
        DB.shape := py "Ionic lattice (not molecular)";
        DB.lewis := py "Na+ and Cl− ions";
        DB.lewis_text := py "Lewis Structure of NaCl: Na donates one electron to Cl forming Na+ and Cl−; ionic lattice in solid.";
        DB.explanation := py "Metal (Na) transfers an electron to nonmetal (Cl), forming oppositely charged ions that attract.";
        DB.lewis_ascii := py "[Na]+  :Cl:−" |});
   (py "HF",
     {| DB.name := py "Hydrogen fluoride";
        DB.bond_type := py "Polar covalent with strong hydrogen bonding between molecules";
        DB.bond_angle := None;
        DB.single_bonds := 1;
        DB.double_bonds := 0;
        DB.shape := py "Diatomic";
        DB.lewis := py "H–F with three lone pairs on F";
        DB.lewis_text := py "Lewis Structure of HF: Single bond H–F with three lone pairs on F.";
        DB.explanation := py "Large electronegativity difference makes the bond highly polar.";
        DB.lewis_ascii := py "H–F:::" |});
   (py "O2",
     {| DB.name := py "Oxygen";
        DB.bond_type := py "Non‑polar covalent (double bond)";
        DB.bond_angle := None;
        DB.single_bonds := 0;
        DB.double_bonds := 1;
        DB.shape := py "Diatomic";
        DB.lewis := py "O=O";
        DB.lewis_text := py "Lewis Structure of O2: Double bond between two oxygens.";
        DB.explanation := py "Two identical atoms share electrons equally.";
        DB.lewis_ascii := py "O = O" |});
   (py "N2",
     {| DB.name := py "Nitrogen";
        DB.bond_type := py "Non‑polar covalent (triple bond)";
        DB.bond_angle := None;
        DB.single_bonds := 0;
        DB.double_bonds := 0;
        DB.shape := py "Diatomic";
        DB.lewis := py "N≡N";
        DB.lewis_text := py "Lewis Structure of N2: Triple bond between two nitrogens.";
        DB.explanation := py "Two identical atoms share three pairs of electrons equally.";
        DB.lewis_ascii := py "N ≡ N" |});
   (py "SO2",
     {| DB.name := py "Sulfur dioxide";
        DB.bond_type := py "Polar covalent (resonance; average bond order >1)";
        DB.bond_angle := Some 119.0%Q;
        DB.single_bonds := 0;
        DB.double_bonds := 2;
        DB.shape := py "Bent";
        DB.lewis := py "O=S=O (resonance forms)";
        DB.lewis_text := py "Lewis Structure of SO2: Bent molecule with resonance between S=O bonds.";
        DB.explanation := py "Electron domains around S make a bent shape; polar due to asymmetry.";
        DB.lewis_ascii := py "O = S = O" |})].


(** ** Formula normalisation *)

Definition normalize_formula `{Casing} (s : str) : str :=
  upper (replace_char 0xB7 (py ".") (replace_char 32 (py "") s)).

(** ** The diagram renderer *)

Definition line_height : Z := 22.
Definition padding : Z := 16.

Definition esc (t : str) : str :=
  replace_char 62 (py "&gt;")
    (replace_char 60 (py "&lt;")
       (replace_char 38 (py "&amp;") t)).

Definition text_elem (i : Z) (line : str) : str :=
  let y := (padding + (i + 1) * line_height)%Z in
  py "<text x='" ++ str_of_int padding ++ py "' y='" ++ str_of_int y
  ++ py "' font-family='IBM Plex Mono, monospace' font-size='18'>"
  ++ esc line ++ py "</text>".

(** The f-string of the document, before [.strip()]. *)
Definition svg_template (width height : Z) (text_elems : list str) : str :=
  py "\n    <svg xmlns='http://www.w3.org/2000/svg' width='" ++ str_of_int width
  ++ py "' height='" ++ str_of_int height
  ++ py "'>\n      <rect x='0' y='0' width='" ++ str_of_int width
  ++ py "' height='" ++ str_of_int height
  ++ py "' fill='white' stroke='#e5e7eb'/>\n      " ++ List.concat text_elems
  ++ py "\n    </svg>\n    ".

(** [formula] is not read by the body, as in the source. *)
Definition make_lewis_svg (formula ascii_diagram : str) : option str :=
  let lines := split_on 10 ascii_diagram in
  m <- py_max (map len lines) ;;
  let width := (m * 12 + padding * 2)%Z in
  let height := (len lines * line_height + padding * 2)%Z in
  let text_elems := map (fun il => text_elem (fst il) (snd il)) (enumerate lines) in
  let svg := strip (svg_template width height text_elems) in
  data <- encode_utf8 svg ;;
  Some (py "data:image/svg+xml;base64," ++ b64encode data).

(** ** The molecule analyzer *)

Record MoleculeAnalysis := {
  formula : str;
  name : option str;
  bond_type : str;
  bond_angle : option Q;
  single_bonds : Z;
  double_bonds : Z;
  shape : option str;
  explanation : str;
  lewis_text : str;
  lewis_ascii : str;
  lewis_svg : str
}.

Definition analyze_molecule `{Casing} (req_formula : str) : option MoleculeAnalysis :=
  let f := normalize_formula req_formula in
  match dict_get MOLECULE_DB f with
  | None =>
    (* the heuristic guess *)
    let guess_lewis_text :=
      py "Lewis structure for " ++ f
      ++ py " is not in the quick database. Try H2O, CO2, CH4, NH3, or NaCl." in
    let guess_lewis_ascii := f in
    svg <- make_lewis_svg f guess_lewis_ascii ;;
    Some {| formula := f;
            name := None;
            bond_type := py "Covalent (heuristic)";
            bond_angle := None;
            single_bonds := 0;
            double_bonds := 0;
            shape := None;
            explanation := py "This is a generic estimate. For exact details, try a common molecule from the examples.";
            lewis_text := guess_lewis_text;
            lewis_ascii := guess_lewis_ascii;
            lewis_svg := svg |}
  | Some data =>
    svg <- make_lewis_svg f (DB.lewis_ascii data) ;;
    Some {| formula := f;
            name := Some (DB.name data);
            bond_type := DB.bond_type data;
            bond_angle := DB.bond_angle data;
            single_bonds := DB.single_bonds data;
            double_bonds := DB.double_bonds data;
            shape := Some (DB.shape data);
            explanation := DB.explanation data;
            lewis_text := DB.lewis_text data;
            lewis_ascii := DB.lewis_ascii data;
            lewis_svg := svg |}
  end.

(** ** The chat responder *)

Definition concepts : list (str * str) := Eval vm_compute in
  [(py "ionic",
     py "Ionic bonding happens when a metal transfers electrons to a nonmetal, forming oppositely charged ions that attract. Example: NaCl (sodium chloride).");
   (py "covalent",
     py "Covalent bonding is when two nonmetals share electron pairs to fill their outer shells. Example: H2 (hydrogen), CH4 (methane).");
   (py "metallic",
     py "Metallic bonding is a lattice of positive metal ions immersed in a 'sea' of delocalized electrons. This explains metals' conductivity and malleability.");
   (py "coordinate",
     py "A coordinate (dative) covalent bond is a covalent bond where both shared electrons come from the same atom. Example: NH4+ forms when NH3 donates a lone pair to H+.");
   (py "hydrogen",
     py "Hydrogen bonding is a strong dipole–dipole attraction between H attached to O, N, or F and a lone pair on a neighboring O, N, or F. Example: water molecules hydrogen-bond to each other.");
   (py "vsepr",
     py "VSEPR theory predicts 3D shapes using electron pair repulsions: electron domains arrange to minimize repulsion (e.g., linear 180°, trigonal planar 120°, tetrahedral 109.5°).")].


Definition help_reply : str := Eval vm_compute in
  py "I can help with bonding concepts (ionic, covalent, metallic, coordinate, hydrogen) and common molecules like H2O, CO2, CH4, NH3, and NaCl. Ask: 'Explain ionic bonding' or 'Why is H2O polar?'".

Definition generic_reply : str := Eval vm_compute in
  py "Great question! Could you specify the concept (e.g., ionic bonding) or a molecule (e.g., H2O) you want to learn about?".

(** The reply for a matching record.  Adjacent string literals are joined
    before the conditional expression is read, so the three lines
    [Molecule], [Type of Bond] and [Bond Angle] together are its first
    branch, and the note alone is its second. *)
Definition molecule_reply (key : str) (data : DB.entry) : str :=
  let reply :=
    match DB.bond_angle data with
    | Some angle =>
      py "Molecule: " ++ key ++ py "\nType of Bond: " ++ DB.bond_type data
      ++ py "\nBond Angle: " ++ str_of_float angle ++ py "°"
    | None => py "Bond Angle: Not applicable for diatomic/ionic lattice"
    end in
  let extra := py "\nExplanation: " ++ DB.explanation data in
  reply ++ extra.

Definition molecule_matches `{Casing} (q : str) (kd : str * DB.entry) : bool :=
  str_in (lower (fst kd)) q || str_in (lower (DB.name (snd kd))) q.

Definition chat `{Casing} (message : str) : str :=
  let q := lower (strip message) in
  match find (molecule_matches q) MOLECULE_DB with
  | Some (key, data) => molecule_reply key data
  | None =>
    match find (fun td => str_in (fst td) q) concepts with
    | Some (_, desc) => desc
    | None =>
      if str_in (py "what is") q || str_in (py "explain") q || str_in (py "define") q
      then help_reply
      else generic_reply
    end
  end.

(** ** The quiz generator *)

Module QuizTemplate.
Record t := {
  q : str;
  options : list str;
  a : Z;
  e : str
}.
End QuizTemplate.

Module QuizItem.
Record t := {
  question : str;
  options : list str;
  correct_index : Z;
  explanation : str
}.
End QuizItem.

Definition QUIZ_BANK : list (str * list QuizTemplate.t) := Eval vm_compute in
  [(py "Ionic Bonding",
     [ {| QuizTemplate.q := py "Which type of bond is formed between sodium and chlorine?";
          QuizTemplate.options := [py "Ionic"; py "Covalent"; py "Metallic"; py "Hydrogen"];
          QuizTemplate.a := 0;
          QuizTemplate.e := py "Na (metal) transfers an electron to Cl (nonmetal) forming ions." |};
       {| QuizTemplate.q := py "What holds ions together in an ionic compound?";
          QuizTemplate.options := [py "Electrostatic attraction"; py "Electron sharing"; py "Magnetic forces"; py "Hydrogen bonds"];
          QuizTemplate.a := 0;
          QuizTemplate.e := py "Oppositely charged ions attract strongly." |} ]);
   (py "Covalent Bonding",
     [ {| QuizTemplate.q := py "Which type of elements typically form covalent bonds?";
          QuizTemplate.options := [py "Two nonmetals"; py "Metal and nonmetal"; py "Two metals"; py "Metal and metalloid"];
          QuizTemplate.a := 0;
          QuizTemplate.e := py "Covalent bonds usually form between nonmetals sharing electrons." |};
       {| QuizTemplate.q := py "In CO2, what type of bonds connect C and O?";
          QuizTemplate.options := [py "Double covalent"; py "Single covalent"; py "Ionic"; py "Metallic"];
          QuizTemplate.a := 0;
          QuizTemplate.e := py "Each oxygen shares two electrons with carbon (O=C=O)." |} ]);
   (py "VSEPR Theory",
     [ {| QuizTemplate.q := py "Ideal bond angle in a tetrahedral geometry is…";
          QuizTemplate.options := [py "109.5°"; py "180°"; py "120°"; py "90°"];
          QuizTemplate.a := 0;
          QuizTemplate.e := py "Tetrahedral electron domain geometry gives 109.5°." |};
       {| QuizTemplate.q := py "The shape of CO2 according to VSEPR is…";
          QuizTemplate.options := [py "Linear"; py "Bent"; py "Trigonal pyramidal"; py "Tetrahedral"];
          QuizTemplate.a := 0;
          QuizTemplate.e := py "Two electron domains around carbon → linear." |} ])].

(** The default quiz of an unknown topic: two templates, the first of which
    quotes the topic in its question. *)
Definition fallback_bank (topic : str) : list QuizTemplate.t :=
  [ {| QuizTemplate.q := py "Basic question on " ++ topic ++ py ": Covalent bonds are formed by…";
       QuizTemplate.options := [py "Sharing electrons"; py "Transferring electrons"; py "Sharing protons"; py "Magnetic forces"];
       QuizTemplate.a := 0;
       QuizTemplate.e := py "Covalent = sharing of electron pairs." |};
    {| QuizTemplate.q := py "Ionic bonds usually form between…";
       QuizTemplate.options := [py "Metals and nonmetals"; py "Two nonmetals"; py "Two metals"; py "Noble gases"];
       QuizTemplate.a := 0;
       QuizTemplate.e := py "Metal + nonmetal → electron transfer." |} ].

(** *** Lists as Python indexes them *)

(** The position a subscript [i] denotes in a list of length [n]: negative
    subscripts count from the end, anything else out of range raises
    [IndexError]. *)
Definition position (n : nat) (i : Z) : option nat :=
  if (0 <=? i)%Z then
    if (i <? Z.of_nat n)%Z then Some (Z.to_nat i) else None
  else
    if (- Z.of_nat n <=? i)%Z then Some (Z.to_nat (Z.of_nat n + i)) else None.

Fixpoint update {A} (l : list A) (k : nat) (x : A) : list A :=
  match l, k with
  | [], _ => []
  | _ :: r, O => x :: r
  | y :: r, S k' => y :: update r k' x
  end.

(** [l[i]] *)
Definition getitem {A} (l : list A) (i : Z) : option A :=
  k <- position (List.length l) i ;; nth_error l k.

(** [l[i] = x] *)
Definition setitem {A} (l : list A) (i : Z) (x : A) : option (list A) :=
  k <- position (List.length l) i ;; Some (update l k x).

(** [l.index(x)]: the first position holding [x], [ValueError] if none. *)
Fixpoint index (l : list str) (x : str) : option Z :=
  match l with
  | [] => None
  | y :: r => if str_eqb y x then Some 0%Z else option_map Z.succ (index r x)
  end.

(** [l * n] *)
Definition times {A} (l : list A) (n : Z) : list A :=
  List.concat (repeat l (Z.to_nat n)).

(** [a // b]: [ZeroDivisionError] on a zero divisor. *)
Definition floordiv (a b : Z) : option Z :=
  if (b =? 0)%Z then None else Some (a / b)%Z.

(** *** The random source

    [random.shuffle] draws from [_randbelow(n)], which returns an integer of
    [range(n)] and advances the generator. *)

Class RandomSource := {
  rng : Type;
  randbelow : Z -> rng -> Z * rng;
  randbelow_range : forall n g, (0 < n)%Z -> (0 <= fst (randbelow n g) < n)%Z
}.

(** A linear congruential generator, as one concrete source. *)
#[export] Instance lcg : RandomSource.
Proof.
  refine {| rng := Z;
            randbelow := fun n g => ((g mod n)%Z, ((g * 1103515245 + 12345) mod 2147483648)%Z) |}.
  intros n g Hn. simpl. apply Z.mod_pos_bound. exact Hn.
Defined.

Section Quiz.
Context `{RandomSource}.

(** [x[i], x[j] = x[j], x[i]] *)
Definition swap {A} (x : list A) (i j : Z) : option (list A) :=
  xj <- getitem x j ;;
  xi <- getitem x i ;;
  x1 <- setitem x i xj ;;
  setitem x1 j xi.

(** The loop of [random.shuffle]: [for i in reversed(range(1, len(x)))]. *)
Fixpoint shuffle_loop {A} (i : nat) (x : list A) (g : rng) : option (list A * rng) :=
  match i with
  | O => Some (x, g)
  | S i' =>
    let jg := randbelow (Z.of_nat i + 1) g in
    x' <- swap x (Z.of_nat i) (fst jg) ;;
    shuffle_loop i' x' (snd jg)
  end.

Definition shuffle {A} (x : list A) (g : rng) : option (list A * rng) :=
  shuffle_loop (List.length x - 1) x g.

(** The body of the loop over the selected templates. *)
Definition make_item (item : QuizTemplate.t) (g : rng) : option (QuizItem.t * rng) :=
  let options := QuizTemplate.options item in
  correct_text <- getitem options (QuizTemplate.a item) ;;
  og <- shuffle options g ;;
  let options := fst og in
  correct_index <- index options correct_text ;;
  Some ({| QuizItem.question := QuizTemplate.q item;
           QuizItem.options := options;
           QuizItem.correct_index := correct_index;
           QuizItem.explanation := QuizTemplate.e item |}, snd og).

Fixpoint make_items (pool : list QuizTemplate.t) (g : rng) : option (list QuizItem.t * rng) :=
  match pool with
  | [] => Some ([], g)
  | item :: rest =>
    ig <- make_item item g ;;
    rg <- make_items rest (snd ig) ;;
    Some (fst ig :: fst rg, snd rg)
  end.

(** [bank = QUIZ_BANK.get(topic)], replaced by the default when it is
    [None] or empty. *)
Definition bank_of (topic : str) : list QuizTemplate.t :=
  match dict_get QUIZ_BANK topic with
  | Some (t :: r) => t :: r
  | _ => fallback_bank topic
  end.

(** [count = max(1, min(10, req.count or 5))] *)
Definition clamp_count (req_count : Z) : Z :=
  Z.max 1 (Z.min 10 (if (req_count =? 0)%Z then 5 else req_count)).

Definition generate_quiz (req_topic : str) (req_count : Z) (g : rng)
  : option (list QuizItem.t * rng) :=
  let topic := strip req_topic in
  let count := clamp_count req_count in
  let bank := bank_of topic in
  reps <- floordiv (count + len bank - 1) (len bank) ;;
  let pool := times bank reps in
  pg <- shuffle pool g ;;
  make_items (firstn (Z.to_nat count) (fst pg)) (snd pg).

End Quiz.

(** ** Reference definitions

    What the properties below compare the handlers with, written from the
    description of the system: the markup the renderer is said to produce,
    the normalisation rule, and what it means for a quiz item to keep track
    of the correct answer of its template. *)

(** One character of a line, as it stands in the markup. *)
Definition escape_char (c : N) : str :=
  if c =? 38 then py "&amp;" else if c =? 60 then py "&lt;" else if c =? 62 then py "&gt;" else [c].

(** The length of the longest line. *)
Definition longest (lines : list str) : Z := fold_right Z.max 0%Z (map len lines).

Definition canvas_width (lines : list str) : Z := (longest lines * 12 + 2 * 16)%Z.
Definition canvas_height (lines : list str) : Z := (len lines * 22 + 2 * 16)%Z.

(** The text element of row [row] (counted from 0). *)
Definition text_line (row : nat) (line : str) : str :=
  py "<text x='16' y='" ++ str_of_int (16 + (Z.of_nat row + 1) * 22)
  ++ py "' font-family='IBM Plex Mono, monospace' font-size='18'>"
  ++ flat_map escape_char line ++ py "</text>".

(** The document a diagram of these lines is expected to be. *)
Definition markup (lines : list str) : str :=
  let width := canvas_width lines in
  let height := canvas_height lines in
  py "<svg xmlns='http://www.w3.org/2000/svg' width='" ++ str_of_int width
  ++ py "' height='" ++ str_of_int height
  ++ py "'>\n      <rect x='0' y='0' width='" ++ str_of_int width
  ++ py "' height='" ++ str_of_int height
  ++ py "' fill='white' stroke='#e5e7eb'/>\n      "
  ++ List.concat (map (fun kl => text_line (fst kl) (snd kl))
                      (combine (seq 0 (List.length lines)) lines))
  ++ py "\n    </svg>".

(** The lines put back together with U+000A between them. *)
Definition join_nl (lines : list str) : str :=
  match lines with
  | [] => []
  | l :: r => l ++ flat_map (fun x => 10 :: x) r
  end.

(** Normalisation, as it is described: spaces dropped, middle dots turned
    into full stops, before the upper-casing. *)
Definition drop_spaces (s : str) : str := filter (fun c => negb (c =? 32)) s.
Definition dot (c : N) : N := if c =? 0xB7 then 46 else c.

(** A quiz item tracks a template when it carries the template's question
    and explanation, its options are the template's in some order, and its
    [correct_index] is the first position of the text the template marks as
    correct. *)
Definition tracks (t : QuizTemplate.t) (it : QuizItem.t) : Prop :=
  QuizItem.question it = QuizTemplate.q t /\
  QuizItem.explanation it = QuizTemplate.e t /\
  Permutation (QuizTemplate.options t) (QuizItem.options it) /\
  exists text,
    getitem (QuizTemplate.options t) (QuizTemplate.a t) = Some text /\
    getitem (QuizItem.options it) (QuizItem.correct_index it) = Some text /\
    forall k, (0 <= k < QuizItem.correct_index it)%Z ->
              getitem (QuizItem.options it) k <> Some text.

(** The answer index of a template points into its options. *)
Definition answerable (t : QuizTemplate.t) : bool :=
  match getitem (QuizTemplate.options t) (QuizTemplate.a t) with
  | Some _ => true
  | None => false
  end.

(** [x] is the first element of [l] that [f] accepts. *)
Definition first_match {A} (f : A -> bool) (l : list A) (x : A) : Prop :=
  exists l1 l2, l = l1 ++ x :: l2 /\ f x = true /\ Forall (fun y => f y = false) l1.


(** No text occurs twice in the list. *)
Fixpoint distinct (l : list str) : bool :=
  match l with
  | [] => true
  | x :: r => negb (existsb (str_eqb x) r) && distinct r
  end.

(** A template with four options, all different. *)
Definition four_distinct (t : QuizTemplate.t) : bool :=
  (List.length (QuizTemplate.options t) =? 4)%nat && distinct (QuizTemplate.options t).

Lemma template_eq_dec (t1 t2 : QuizTemplate.t) : {t1 = t2} + {t1 <> t2}.
Proof.
  decide equality; try apply Z.eq_dec; try apply (list_eq_dec N.eq_dec).
  apply (list_eq_dec (list_eq_dec N.eq_dec)).
Defined.


(** * Properties *)

(** Literals are read by evaluation ([vm_compute]), never by unification. *)
#[global] Opaque py.

#[local] Ltac Zify.zify_post_hook ::= Z.to_euclidean_division_equations.

(** ** Literals and codecs at sample values *)

Example py_water : py "H2O" = [72; 50; 79].
Proof. vm_compute. reflexivity. Qed.

Example py_escapes : py "H–F\n°" = [72; 0x2013; 70; 10; 0xB0].
Proof. vm_compute. reflexivity. Qed.

Example b64_man :
  b64encode (octets "Man") = py "TWFu" /\ b64encode (octets "Ma") = py "TWE=".
Proof. split; vm_compute; reflexivity. Qed.

Example b64_back : b64decode (py "TWE=") = Some (octets "Ma").
Proof. vm_compute. reflexivity. Qed.

(** ** Codecs *)

Ltac bool_to_prop :=
  repeat match goal with
  | H : (_ && _)%bool = true |- _ => apply andb_true_iff in H; destruct H
  | H : (_ || _)%bool = false |- _ => apply orb_false_iff in H; destruct H
  | H : negb _ = true |- _ => apply negb_true_iff in H
  | H : negb _ = false |- _ => apply negb_false_iff in H
  | H : (_ <? _) = true |- _ => apply N.ltb_lt in H
  | H : (_ <? _) = false |- _ => apply N.ltb_ge in H
  | H : (_ <=? _) = true |- _ => apply N.leb_le in H
  | H : (_ <=? _) = false |- _ => apply N.leb_gt in H
  | H : (_ =? _) = true |- _ => apply N.eqb_eq in H
  | H : (_ =? _) = false |- _ => apply N.eqb_neq in H
  | H : (_ && _)%bool = false |- _ => apply andb_false_iff in H; destruct H
  | H : (_ || _)%bool = true |- _ => apply orb_true_iff in H; destruct H
  end.

(* case analysis on the innermost test of the goal *)
Ltac split_if :=
  match goal with
  | |- context [if ?b then _ else _] =>
    lazymatch b with
    | context [if _ then _ else _] => fail
    | _ => let E := fresh "E" in destruct b eqn:E; bool_to_prop; try lia
    end
  end.



Lemma Some_eq {A} (x y : A) : Some x = Some y -> x = y.
Proof. intros E. injection E as E. exact E. Qed.




Lemma utf8_char_valid c : is_scalar c = true -> exists bs, utf8_char c = Some bs.
Proof.
  unfold is_scalar, utf8_char. intros Hc. apply andb_true_iff in Hc. destruct Hc as [H1 H2].
  apply negb_true_iff in H2. rewrite H2. apply N.leb_le in H1.
  repeat split_if; eauto.
Qed.

Lemma utf8_char_scalar c bs : utf8_char c = Some bs -> is_scalar c = true.
Proof.
  unfold is_scalar, utf8_char. intros Hc.
  destruct (c <? 128) eqn:E1; [| destruct (c <? 2048) eqn:E2; [| destruct (is_surrogate c) eqn:E3; [discriminate|]]].
  - unfold is_surrogate. bool_to_prop. apply andb_true_iff; split; [apply N.leb_le; lia|].
    apply negb_true_iff, andb_false_iff. left. apply N.leb_gt. lia.
  - unfold is_surrogate. bool_to_prop. apply andb_true_iff; split; [apply N.leb_le; lia|].
    apply negb_true_iff, andb_false_iff. left. apply N.leb_gt. lia.
  - rewrite andb_true_r. apply N.leb_le.
    destruct (c <? 65536) eqn:E4; [bool_to_prop; lia|].
    destruct (c <? 1114112) eqn:E5; [bool_to_prop; lia | discriminate].
Qed.




Lemma encode_utf8_valid s : valid_text s = true -> exists bs, encode_utf8 s = Some bs.
Proof.
  induction s as [|c s IH]; simpl; intros Hs; [eauto|].
  apply andb_true_iff in Hs. destruct Hs as [Hc Hs].
  destruct (utf8_char_valid c Hc) as [b ->]. destruct (IH Hs) as [r ->]. eauto.
Qed.

Lemma encode_utf8_only_valid s bs : encode_utf8 s = Some bs -> valid_text s = true.
Proof.
  revert bs. induction s as [|c s IH]; simpl; intros bs Hs; [reflexivity|].
  destruct (utf8_char c) as [b|] eqn:Ec; [|discriminate].
  destruct (encode_utf8 s) as [r|] eqn:Er; [|discriminate].
  rewrite (utf8_char_scalar _ _ Ec), (IH r eq_refl). reflexivity.
Qed.

(** ** The renderer *)

Lemma split_on_nonempty sep s : split_on sep s <> [].
Proof. destruct s as [|c r]; simpl; [discriminate|]. destruct (c =? sep); [discriminate|]. destruct (split_on sep r); discriminate. Qed.

Lemma join_split s : join_nl (split_on 10 s) = s.
Proof.
  induction s as [|c r IH]; [reflexivity|].
  simpl. destruct (c =? 10) eqn:E.
  - apply N.eqb_eq in E. subst c. simpl.
    destruct (split_on 10 r) as [|l ls] eqn:Es; [exfalso; exact (split_on_nonempty _ _ Es)|].
    simpl in *. f_equal. exact IH.
  - destruct (split_on 10 r) as [|l ls] eqn:Es; [exfalso; exact (split_on_nonempty _ _ Es)|].
    simpl in *. f_equal. exact IH.
Qed.

Lemma split_lines_no_newline s : Forall (fun l => ~ In 10 l) (split_on 10 s).
Proof.
  induction s as [|c r IH]; simpl.
  - constructor; [intros []|constructor].
  - destruct (c =? 10) eqn:E.
    + constructor; [intros []|exact IH].
    + destruct (split_on 10 r) as [|l ls]; [constructor; [|constructor]|].
      * intros [H|[]]. subst c. discriminate.
      * inversion IH; subst. constructor; [|assumption].
        intros [H|H]; [subst c; discriminate|contradiction].
Qed.


Lemma fold_left_max_base r : forall x b, (b <= x)%Z -> fold_left Z.max r x = Z.max x (fold_right Z.max b r).
Proof.
  induction r as [|y r IH]; intros x b Hb; simpl; [lia|].
  rewrite (IH (Z.max x y) b) by lia. lia.
Qed.

Lemma py_max_longest lines : lines <> [] -> py_max (map len lines) = Some (longest lines).
Proof.
  destruct lines as [|l r]; [congruence|]. intros _. unfold py_max, longest. simpl.
  f_equal. apply fold_left_max_base. unfold len. lia.
Qed.

Lemma flat_map_flat_map {A B C} (f : A -> list B) (g : B -> list C) l :
  flat_map g (flat_map f l) = flat_map (fun x => flat_map g (f x)) l.
Proof. induction l as [|x l IH]; simpl; [reflexivity|]. rewrite flat_map_app, IH. reflexivity. Qed.

Lemma esc_escape line : esc line = flat_map escape_char line.
Proof.
  unfold esc, replace_char. rewrite !flat_map_flat_map.
  apply flat_map_ext. intros c. unfold escape_char.
  destruct (c =? 38) eqn:E1; [vm_compute; reflexivity|].
  cbn [flat_map app]. destruct (c =? 60) eqn:E2; [vm_compute; reflexivity|].
  cbn [flat_map app]. destruct (c =? 62) eqn:E3; [vm_compute; reflexivity|].
  reflexivity.
Qed.

Lemma text_open r :
  py "<text x='" ++ str_of_int 16 ++ py "' y='" ++ r = py "<text x='16' y='" ++ r.
Proof.
  assert (E : py "<text x='16' y='" = py "<text x='" ++ str_of_int 16 ++ py "' y='")
    by (vm_compute; reflexivity).
  rewrite E, <- !app_assoc. reflexivity.
Qed.

Lemma text_elem_line k line : text_elem (Z.of_nat k) line = text_line k line.
Proof.
  unfold text_elem, text_line. rewrite esc_escape. unfold padding, line_height.
  apply text_open.
Qed.

Lemma enumerate_from_rows lines : forall k,
  map (fun il => text_elem (fst il) (snd il)) (enumerate_from (Z.of_nat k) lines)
  = map (fun kl => text_line (fst kl) (snd kl)) (combine (seq k (List.length lines)) lines).
Proof.
  induction lines as [|l r IH]; intros k; [reflexivity|].
  cbn [enumerate_from List.length seq combine map fst snd]. f_equal.
  - apply text_elem_line.
  - replace (Z.of_nat k + 1)%Z with (Z.of_nat (S k)) by lia. apply IH.
Qed.

Lemma lstrip_app u v : lstrip u <> [] -> lstrip (u ++ v) = lstrip u ++ v.
Proof.
  induction u as [|c u IH]; simpl; [congruence|].
  destruct (is_space c); [exact IH | reflexivity].
Qed.

Lemma rstrip_app u v w : rstrip v = w -> w <> [] -> rstrip (u ++ v) = u ++ w.
Proof.
  unfold rstrip. intros Hv Hw. rewrite rev_app_distr, lstrip_app.
  - rewrite rev_app_distr, rev_involutive, Hv. reflexivity.
  - intros E. rewrite E in Hv. simpl in Hv. congruence.
Qed.

Lemma app_nonempty {A} (u v : list A) : v <> [] -> u ++ v <> [].
Proof. destruct u; simpl; [auto | discriminate]. Qed.


Lemma strip_template width height elems :
  strip (svg_template width height elems) =
  py "<svg xmlns='http://www.w3.org/2000/svg' width='" ++ str_of_int width
  ++ py "' height='" ++ str_of_int height
  ++ py "'>\n      <rect x='0' y='0' width='" ++ str_of_int width
  ++ py "' height='" ++ str_of_int height
  ++ py "' fill='white' stroke='#e5e7eb'/>\n      " ++ List.concat elems
  ++ py "\n    </svg>".
Proof.
  unfold strip, svg_template.
  rewrite lstrip_app by (vm_compute; discriminate).
  assert (E1 : lstrip (py "\n    <svg xmlns='http://www.w3.org/2000/svg' width='")
               = py "<svg xmlns='http://www.w3.org/2000/svg' width='")
    by (vm_compute; reflexivity).
  assert (E2 : rstrip (py "\n    </svg>\n    ") = py "\n    </svg>")
    by (vm_compute; reflexivity).
  assert (E3 : py "\n    </svg>" <> []) by (vm_compute; discriminate).
  rewrite E1.
  rewrite !app_assoc.
  rewrite (rstrip_app _ _ _ E2 E3).
  reflexivity.
Qed.

(** The renderer, in one equation: the document is [markup] of the lines. *)
Lemma make_lewis_svg_eq label art :
  make_lewis_svg label art =
  (data <- encode_utf8 (markup (split_on 10 art)) ;;
   Some (py "data:image/svg+xml;base64," ++ b64encode data)).
Proof.
  unfold make_lewis_svg.
  rewrite (py_max_longest _ (split_on_nonempty 10 art)).
  rewrite strip_template. unfold enumerate.
  change (enumerate_from 0%Z (split_on 10 art))
    with (enumerate_from (Z.of_nat 0) (split_on 10 art)).
  rewrite (enumerate_from_rows (split_on 10 art) 0).
  unfold markup, canvas_width, canvas_height, padding, line_height.
  replace (longest (split_on 10 art) * 12 + 16 * 2)%Z
    with (longest (split_on 10 art) * 12 + 2 * 16)%Z by lia.
  replace (len (split_on 10 art) * 22 + 16 * 2)%Z
    with (len (split_on 10 art) * 22 + 2 * 16)%Z by lia.
  reflexivity.
Qed.

Lemma valid_text_app s t : valid_text (s ++ t) = valid_text s && valid_text t.
Proof. apply forallb_app. Qed.

Lemma valid_octets s : valid_text (octets s) = true.
Proof.
  unfold octets. induction (list_ascii_of_string s) as [|a l IH]; [reflexivity|].
  cbn [map valid_text forallb]. fold (valid_text (map N_of_ascii l)). rewrite IH, andb_true_r.
  assert (Ha : N_of_ascii a < 256) by apply N_ascii_bounded.
  unfold is_scalar, is_surrogate.
  apply andb_true_iff; split; [apply N.leb_le; lia|].
  apply negb_true_iff, andb_false_iff. left. apply N.leb_gt. lia.
Qed.

Lemma valid_str_of_int z : valid_text (str_of_int z) = true.
Proof. apply valid_octets. Qed.

Lemma valid_flat_map {A} (f : A -> str) l :
  (forall x, In x l -> valid_text (f x) = true) -> valid_text (flat_map f l) = true.
Proof.
  induction l as [|x l IH]; intros Hf; [reflexivity|].
  cbn [flat_map]. rewrite valid_text_app, Hf, IH; [reflexivity | | left; reflexivity].
  intros y Hy. apply Hf. right. exact Hy.
Qed.

Lemma valid_escape line : valid_text line = true -> valid_text (flat_map escape_char line) = true.
Proof.
  intros Hl. apply valid_flat_map. intros c Hc.
  unfold valid_text in Hl. rewrite forallb_forall in Hl. specialize (Hl c Hc).
  unfold escape_char.
  destruct (c =? 38); [vm_compute; reflexivity|].
  destruct (c =? 60); [vm_compute; reflexivity|].
  destruct (c =? 62); [vm_compute; reflexivity|].
  cbn. rewrite Hl. reflexivity.
Qed.

Lemma valid_text_line k line : valid_text line = true -> valid_text (text_line k line) = true.
Proof.
  intros Hl. unfold text_line.
  rewrite !valid_text_app, valid_str_of_int, (valid_escape _ Hl).
  vm_compute. reflexivity.
Qed.

Lemma valid_split s : valid_text s = true -> Forall (fun l => valid_text l = true) (split_on 10 s).
Proof.
  induction s as [|c r IH]; intros Hs; cbn [split_on].
  - repeat constructor.
  - cbn [valid_text forallb] in Hs. apply andb_true_iff in Hs. destruct Hs as [Hc Hr].
    specialize (IH Hr).
    destruct (c =? 10); [constructor; [reflexivity | exact IH]|].
    destruct (split_on 10 r) as [|l ls]; [repeat constructor; cbn; rewrite Hc; reflexivity|].
    inversion IH; subst. constructor; [|assumption].
    cbn [valid_text forallb]. rewrite Hc. assumption.
Qed.

Lemma valid_rows lines : Forall (fun l => valid_text l = true) lines -> forall k,
  valid_text (List.concat (map (fun kl => text_line (fst kl) (snd kl))
                               (combine (seq k (List.length lines)) lines))) = true.
Proof.
  induction 1 as [|l r Hl Hr IH]; intros k; [reflexivity|].
  cbn [List.length seq combine map List.concat fst snd].
  rewrite valid_text_app, (valid_text_line _ _ Hl), IH. reflexivity.
Qed.

Lemma valid_markup lines :
  Forall (fun l => valid_text l = true) lines -> valid_text (markup lines) = true.
Proof.
  intros Hl. unfold markup.
  rewrite !valid_text_app, !valid_str_of_int, (valid_rows _ Hl).
  vm_compute. reflexivity.
Qed.


Lemma render_valid label art :
  valid_text art = true ->
  exists data,
    encode_utf8 (markup (split_on 10 art)) = Some data /\
    make_lewis_svg label art = Some (py "data:image/svg+xml;base64," ++ b64encode data).
Proof.
  intros Hv. rewrite make_lewis_svg_eq.
  destruct (encode_utf8_valid _ (valid_markup _ (valid_split _ Hv))) as [data ->]. eauto.
Qed.







(** ** Normalisation and the analyzer *)

Lemma replace_space s : replace_char 32 (py "") s = drop_spaces s.
Proof.
  unfold replace_char, drop_spaces. induction s as [|c s IH]; [reflexivity|].
  cbn [flat_map filter]. rewrite IH. destruct (c =? 32); [vm_compute py; reflexivity | reflexivity].
Qed.

Lemma replace_dot s : replace_char 0xB7 (py ".") s = map dot s.
Proof.
  unfold replace_char, dot. induction s as [|c s IH]; [reflexivity|].
  cbn [flat_map map]. rewrite IH. destruct (c =? 183); [vm_compute py; reflexivity | reflexivity].
Qed.

Section Analyzer.
Context `{Casing}.

Lemma normalize_formula_eq s : normalize_formula s = upper (map dot (drop_spaces s)).
Proof. unfold normalize_formula. rewrite replace_space, replace_dot. reflexivity. Qed.

Lemma valid_normalize s : valid_text s = true -> valid_text (normalize_formula s) = true.
Proof.
  intros Hs. rewrite normalize_formula_eq. apply upper_valid.
  unfold valid_text in *. rewrite forallb_forall in *. intros c Hc.
  apply in_map_iff in Hc. destruct Hc as [d [<- Hd]].
  unfold drop_spaces in Hd. apply filter_In in Hd. destruct Hd as [Hd _].
  unfold dot. destruct (d =? 183); [reflexivity | exact (Hs d Hd)].
Qed.

Lemma normalize_ascii s :
  forallb is_ascii s = true -> normalize_formula s = map ascii_upper (drop_spaces s).
Proof.
  intros Hs. rewrite normalize_formula_eq.
  assert (Hd : map dot (drop_spaces s) = drop_spaces s).
  { rewrite forallb_forall in Hs. unfold drop_spaces.
    rewrite <- (map_id (filter _ s)) at 2. apply map_ext_in. intros c Hc.
    apply filter_In in Hc. destruct Hc as [Hc _]. specialize (Hs c Hc).
    unfold is_ascii in Hs. apply N.ltb_lt in Hs. unfold dot.
    destruct (c =? 183) eqn:E; [apply N.eqb_eq in E; lia | reflexivity]. }
  rewrite Hd. apply upper_ascii.
  rewrite forallb_forall in *. intros c Hc. apply filter_In in Hc. apply Hs, Hc.
Qed.


Lemma normalize_drop_space s1 s2 :
  normalize_formula (s1 ++ 32 :: s2) = normalize_formula (s1 ++ s2).
Proof.
  rewrite !normalize_formula_eq. unfold drop_spaces. rewrite !filter_app.
  reflexivity.
Qed.

Lemma ascii_lower_is_ascii s : forallb is_ascii s = true -> forallb is_ascii (map ascii_lower s) = true.
Proof.
  rewrite !forallb_forall. intros Hs c Hc. apply in_map_iff in Hc. destruct Hc as [d [<- Hd]].
  specialize (Hs d Hd). unfold is_ascii, ascii_lower in *. apply N.ltb_lt in Hs. apply N.ltb_lt.
  destruct ((65 <=? d) && (d <=? 90)) eqn:E; [|exact Hs]. bool_to_prop. lia.
Qed.

Lemma drop_spaces_lower s : drop_spaces (map ascii_lower s) = map ascii_lower (drop_spaces s).
Proof.
  unfold drop_spaces. induction s as [|c s IH]; [reflexivity|].
  cbn [map filter]. rewrite IH.
  assert (E : (ascii_lower c =? 32) = (c =? 32)).
  { unfold ascii_lower. destruct ((65 <=? c) && (c <=? 90)) eqn:E; [|reflexivity].
    bool_to_prop. transitivity false; [apply N.eqb_neq | symmetry; apply N.eqb_neq]; lia. }
  rewrite E. destruct (c =? 32); reflexivity.
Qed.

Lemma upper_lower c : ascii_upper (ascii_lower c) = ascii_upper c.
Proof.
  unfold ascii_upper, ascii_lower.
  repeat split_if; lia.
Qed.

Lemma normalize_lower s :
  forallb is_ascii s = true -> normalize_formula (map ascii_lower s) = normalize_formula s.
Proof.
  intros Hs. rewrite (normalize_ascii s Hs), (normalize_ascii _ (ascii_lower_is_ascii s Hs)).
  rewrite drop_spaces_lower, map_map. apply map_ext. intros c. apply upper_lower.
Qed.

(** Evaluation of a normalisation at ASCII text. *)
Ltac normalize_at s :=
  rewrite (normalize_ascii s) by (vm_compute; reflexivity).

(** C5.  Normalisation drops every space character U+0020 (other
    whitespace stays), turns middle dots into full stops and upper-cases the
    rest; so it ignores spaces anywhere in the formula and the case of ASCII
    letters, and the lookups of "h2o", " H2O " and "H2O" yield the same
    record, that of water. *)
Theorem normalize_formula_lookup :
  (forall s, normalize_formula s = upper (map dot (drop_spaces s))) /\
  (forall s1 s2, normalize_formula (s1 ++ 32 :: s2) = normalize_formula (s1 ++ s2)) /\
  (forall s, forallb is_ascii s = true ->
             normalize_formula (map ascii_lower s) = normalize_formula s) /\
  exists data,
    dict_get MOLECULE_DB (normalize_formula (py "h2o")) = Some data /\
    dict_get MOLECULE_DB (normalize_formula (py " H2O ")) = Some data /\
    dict_get MOLECULE_DB (normalize_formula (py "H2O")) = Some data /\
    DB.name data = py "Water".
Proof.
  split; [exact normalize_formula_eq|]. split; [exact normalize_drop_space|].
  split; [exact normalize_lower|].
  normalize_at (py "h2o"). normalize_at (py " H2O "). normalize_at (py "H2O").
  eexists. split; [vm_compute; reflexivity|].
  repeat split; vm_compute; reflexivity.
Qed.

Lemma upper_nil : upper [] = [].
Proof. apply (upper_ascii []). reflexivity. Qed.

Lemma normalize_spaces n : normalize_formula (repeat 32 n) = [].
Proof.
  rewrite normalize_formula_eq.
  assert (E : drop_spaces (repeat 32 n) = []).
  { induction n as [|n IH]; [reflexivity | exact IH]. }
  rewrite E. exact upper_nil.
Qed.

(** The record the analyzer answers with on a miss. *)
Lemma analyze_miss s :
  valid_text s = true ->
  dict_get MOLECULE_DB (normalize_formula s) = None ->
  exists data,
    encode_utf8 (markup (split_on 10 (normalize_formula s))) = Some data /\
    analyze_molecule s =
    Some {| formula := normalize_formula s;
            name := None;
            bond_type := py "Covalent (heuristic)";
            bond_angle := None;
            single_bonds := 0;
            double_bonds := 0;
            shape := None;
            explanation := py "This is a generic estimate. For exact details, try a common molecule from the examples.";
            lewis_text := py "Lewis structure for " ++ normalize_formula s
                          ++ py " is not in the quick database. Try H2O, CO2, CH4, NH3, or NaCl.";
            lewis_ascii := normalize_formula s;
            lewis_svg := py "data:image/svg+xml;base64," ++ b64encode data |}.
Proof.
  intros Hv Hmiss. unfold analyze_molecule. rewrite Hmiss.
  destruct (render_valid (normalize_formula s) (normalize_formula s) (valid_normalize s Hv))
    as [data [Hd ->]].
  exists data. split; [exact Hd | reflexivity].
Qed.

Lemma data_uri_nonempty payload : py "data:image/svg+xml;base64," ++ payload <> [].
Proof.
  assert (E : py "data:image/svg+xml;base64," = 100 :: py "ata:image/svg+xml;base64,")
    by (vm_compute; reflexivity).
  rewrite E. discriminate.
Qed.

(** C6.  [analyze("h2o")] returns bond angle 104.5 and shape
    "Bent (V-shaped)"; for every formula that is well-formed Unicode text
    and misses the knowledge base, the analyzer returns bond type
    "Covalent (heuristic)", zero single and double bonds, no angle and no
    shape, the normalised formula as ASCII art, and as diagram the non-empty
    artifact the renderer makes of it. *)
Theorem analyze_molecule_results :
  (exists r, analyze_molecule (py "h2o") = Some r /\
             bond_angle r = Some 104.5%Q /\ shape r = Some (py "Bent (V-shaped)")) /\
  (forall s,
     valid_text s = true ->
     dict_get MOLECULE_DB (normalize_formula s) = None ->
     exists r,
       analyze_molecule s = Some r /\
       bond_type r = py "Covalent (heuristic)" /\
       single_bonds r = 0%Z /\ double_bonds r = 0%Z /\
       bond_angle r = None /\ shape r = None /\
       lewis_ascii r = normalize_formula s /\
       make_lewis_svg (formula r) (lewis_ascii r) = Some (lewis_svg r) /\
       lewis_svg r <> []).
Proof.
  split.
  - unfold analyze_molecule. normalize_at (py "h2o").
    eexists. split; [vm_compute; reflexivity|]. split; vm_compute; reflexivity.
  - intros s Hv Hmiss. destruct (analyze_miss s Hv Hmiss) as [data [Hd Hr]].
    eexists. split; [exact Hr|]. cbn [bond_type single_bonds double_bonds bond_angle shape
                                      lewis_ascii lewis_svg formula].
    repeat (split; [reflexivity|]). split.
    + rewrite make_lewis_svg_eq, Hd. reflexivity.
    + apply data_uri_nonempty.
Qed.

(** C10.  For the empty formula and for every formula made of
    space characters U+0020 only, the analyzer does not fail: the normalised
    key is empty, misses the knowledge base, and the heuristic record comes
    back with an empty formula and the diagram of a single empty line. *)
Theorem analyze_molecule_blank n :
  exists r,
    analyze_molecule (repeat 32 n) = Some r /\
    formula r = [] /\
    bond_type r = py "Covalent (heuristic)" /\
    lewis_ascii r = [] /\
    split_on 10 (lewis_ascii r) = [[]] /\
    make_lewis_svg (formula r) (lewis_ascii r) = Some (lewis_svg r).
Proof.
  unfold analyze_molecule. rewrite normalize_spaces.
  eexists. split; [vm_compute; reflexivity|].
  repeat split; vm_compute; reflexivity.
Qed.

End Analyzer.

(** The miss at "XYZ123", under the ASCII case mapping. *)
Lemma analyze_molecule_xyz123 :
  exists r,
    analyze_molecule (H:=ascii_casing) (py "XYZ123") = Some r /\
    bond_type r = py "Covalent (heuristic)" /\
    lewis_ascii r = py "XYZ123" /\
    lewis_svg r <> [].
Proof.
  destruct (proj2 (analyze_molecule_results (H:=ascii_casing)) (py "XYZ123"))
    as [r [Hr [Hb [_ [_ [_ [_ [Ha [_ Hs]]]]]]]]];
    [vm_compute; reflexivity | vm_compute; reflexivity |].
  exists r. split; [exact Hr|]. split; [exact Hb|]. split; [|exact Hs].
  rewrite Ha. vm_compute. reflexivity.
Defined.

(** A tab is whitespace and survives normalisation: the lookup misses. *)
Lemma normalize_formula_keeps_tab :
  is_space 9 = true /\
  normalize_formula (H:=ascii_casing) (9 :: py "h2o") = 9 :: py "H2O" /\
  dict_get MOLECULE_DB (normalize_formula (H:=ascii_casing) (9 :: py "h2o")) = None /\
  dict_get MOLECULE_DB (normalize_formula (H:=ascii_casing) (py "h2o")) <> None.
Proof. vm_compute. repeat split; discriminate. Qed.

(** A formula holding a lone surrogate misses the knowledge base, and the
    analyzer raises in the renderer. *)
Lemma analyze_molecule_surrogate :
  dict_get MOLECULE_DB (normalize_formula (H:=ascii_casing) [0xD800]) = None /\
  analyze_molecule (H:=ascii_casing) [0xD800] = None.
Proof. vm_compute. split; reflexivity. Qed.

(** A newline is whitespace; the key it normalises to is not empty, and the
    diagram has two lines. *)
Lemma analyze_molecule_newline :
  forallb is_space (py "\n") = true /\
  exists r,
    analyze_molecule (H:=ascii_casing) (py "\n") = Some r /\
    formula r = py "\n" /\ formula r <> [] /\
    split_on 10 (lewis_ascii r) = [[]; []].
Proof.
  split; [vm_compute; reflexivity|].
  eexists. split; [vm_compute; reflexivity|].
  repeat split; try (vm_compute; reflexivity). vm_compute. discriminate.
Qed.

(** ** The chat responder *)

Lemma find_ext_in {A} (f g : A -> bool) l :
  (forall x, In x l -> f x = g x) -> find f l = find g l.
Proof.
  induction l as [|x l IH]; intros Hfg; [reflexivity|].
  cbn [find]. rewrite (Hfg x (or_introl eq_refl)), IH; [reflexivity|].
  intros y Hy. apply Hfg. right. exact Hy.
Qed.

Lemma starts_with_app p s : starts_with p (p ++ s) = true.
Proof. induction p as [|c p IH]; [reflexivity|]. cbn. rewrite N.eqb_refl. exact IH. Qed.

Lemma str_in_app x u v : str_in x (u ++ x ++ v) = true.
Proof.
  induction u as [|c u IH].
  - cbn [app]. destruct (x ++ v) eqn:E; cbn [str_in]; rewrite <- E, starts_with_app; reflexivity.
  - cbn [app str_in]. rewrite IH. apply orb_true_r.
Qed.

Lemma molecule_table_ascii :
  forallb (fun kd => forallb is_ascii (fst kd) && forallb is_ascii (DB.name (snd kd)))
          MOLECULE_DB = true.
Proof. vm_compute. reflexivity. Qed.

Section Chat.
Context `{Casing}.

Lemma molecule_matches_ascii q kd :
  In kd MOLECULE_DB -> molecule_matches q kd = molecule_matches (H:=ascii_casing) q kd.
Proof.
  intros Hkd. pose proof molecule_table_ascii as Ht. rewrite forallb_forall in Ht.
  specialize (Ht kd Hkd). apply andb_true_iff in Ht. destruct Ht as [Hk Hn].
  unfold molecule_matches. rewrite (lower_ascii _ Hk), (lower_ascii _ Hn). reflexivity.
Qed.

(** On an ASCII message the reply does not depend on the case tables. *)
Lemma chat_ascii message :
  forallb is_ascii (strip message) = true -> chat message = chat (H:=ascii_casing) message.
Proof.
  intros Hm. unfold chat. cbv zeta. rewrite (lower_ascii _ Hm).
  rewrite (find_ext_in (molecule_matches (map ascii_lower (strip message)))
             (molecule_matches (H:=ascii_casing) (map ascii_lower (strip message)))
             MOLECULE_DB (fun kd Hkd => molecule_matches_ascii _ kd Hkd)).
  reflexivity.
Qed.

Lemma chat_first_match message key data :
  find (molecule_matches (lower (strip message))) MOLECULE_DB = Some (key, data) ->
  chat message = molecule_reply key data.
Proof. intros Hf. unfold chat. cbv zeta. rewrite Hf. reflexivity. Qed.

(** With a bond angle the reply has all four parts. *)
Lemma chat_reply_with_angle message key data angle :
  find (molecule_matches (lower (strip message))) MOLECULE_DB = Some (key, data) ->
  DB.bond_angle data = Some angle ->
  chat message =
    py "Molecule: " ++ key ++ py "\n" ++ py "Type of Bond: " ++ DB.bond_type data
    ++ py "\n" ++ py "Bond Angle: " ++ str_of_float angle ++ py "°"
    ++ py "\n" ++ py "Explanation: " ++ DB.explanation data.
Proof.
  intros Hf Ha. rewrite (chat_first_match _ _ _ Hf). unfold molecule_reply. rewrite Ha.
  assert (E1 : py "\nType of Bond: " = py "\n" ++ py "Type of Bond: ") by (vm_compute; reflexivity).
  assert (E2 : py "\nBond Angle: " = py "\n" ++ py "Bond Angle: ") by (vm_compute; reflexivity).
  assert (E3 : py "\nExplanation: " = py "\n" ++ py "Explanation: ") by (vm_compute; reflexivity).
  rewrite E1, E2, E3, <- !app_assoc. reflexivity.
Qed.

(** Without one the reply is the note and the explanation, nothing else. *)
Lemma chat_reply_without_angle message key data :
  find (molecule_matches (lower (strip message))) MOLECULE_DB = Some (key, data) ->
  DB.bond_angle data = None ->
  chat message =
    py "Bond Angle: Not applicable for diatomic/ionic lattice"
    ++ py "\nExplanation: " ++ DB.explanation data.
Proof.
  intros Hf Ha. rewrite (chat_first_match _ _ _ Hf). unfold molecule_reply. rewrite Ha.
  reflexivity.
Qed.

Lemma chat_h2o :
  exists rest,
    chat (py "Why is H2O polar?") = py "Molecule: H2O" ++ rest /\
    str_in (py "Polar covalent") (chat (py "Why is H2O polar?")) = true.
Proof.
  rewrite chat_ascii by (vm_compute; reflexivity).
  eexists. split.
  - assert (E : py "Molecule: H2O" = firstn 13 (chat (H:=ascii_casing) (py "Why is H2O polar?")))
      by (vm_compute; reflexivity).
    rewrite E. symmetry. apply firstn_skipn.
  - vm_compute. reflexivity.
Qed.

(** C1.  The reply at a record without bond angle: for "What bond is in NaCl?" the
    first matching record is NaCl, whose bond type is "Ionic" and whose
    angle is absent; the reply is the not-applicable note and the
    explanation only, and holds neither the molecule key nor its bond
    classification. *)
Theorem chat_nacl_reply :
  exists data,
    find (molecule_matches (lower (strip (py "What bond is in NaCl?")))) MOLECULE_DB
      = Some (py "NaCl", data) /\
    DB.bond_type data = py "Ionic" /\
    chat (py "What bond is in NaCl?") =
      py "Bond Angle: Not applicable for diatomic/ionic lattice\nExplanation: Metal (Na) transfers an electron to nonmetal (Cl), forming oppositely charged ions that attract." /\
    str_in (py "NaCl") (chat (py "What bond is in NaCl?")) = false /\
    str_in (py "Ionic") (chat (py "What bond is in NaCl?")) = false.
Proof.
  rewrite chat_ascii by (vm_compute; reflexivity).
  rewrite lower_ascii by (vm_compute; reflexivity).
  rewrite (find_ext_in (molecule_matches (map ascii_lower (strip (py "What bond is in NaCl?"))))
             (molecule_matches (H:=ascii_casing)
                            (map ascii_lower (strip (py "What bond is in NaCl?"))))
             MOLECULE_DB (fun kd Hkd => molecule_matches_ascii _ kd Hkd)).
  eexists. split; [vm_compute; reflexivity|].
  repeat split; vm_compute; reflexivity.
Qed.

End Chat.

(** ** The quiz generator *)

Local Open Scope Z_scope.

(** ** Lists *)

Lemma str_eqb_eq a : forall b, str_eqb a b = true <-> a = b.
Proof.
  induction a as [|x a IH]; intros [|y b]; cbn [str_eqb]; try (split; [discriminate|congruence]).
  - split; reflexivity.
  - rewrite andb_true_iff, N.eqb_eq, IH. split; [intros [-> ->]; reflexivity|].
    intros E. injection E as -> ->. split; reflexivity.
Qed.

Lemma position_nonneg n i : 0 <= i < Z.of_nat n -> position n i = Some (Z.to_nat i).
Proof.
  intros Hi. unfold position.
  destruct (0 <=? i) eqn:E1; [|apply Z.leb_gt in E1; lia].
  destruct (i <? Z.of_nat n) eqn:E2; [reflexivity | apply Z.ltb_ge in E2; lia].
Qed.

Lemma getitem_nonneg {A} (l : list A) i :
  0 <= i < len l -> getitem l i = nth_error l (Z.to_nat i).
Proof. intros Hi. unfold getitem. rewrite position_nonneg by exact Hi. reflexivity. Qed.

Lemma setitem_nonneg {A} (l : list A) i x :
  0 <= i < len l -> setitem l i x = Some (update l (Z.to_nat i) x).
Proof. intros Hi. unfold setitem. rewrite position_nonneg by exact Hi. reflexivity. Qed.

Lemma update_length {A} (l : list A) : forall k x, List.length (update l k x) = List.length l.
Proof.
  induction l as [|y l IH]; intros [|k] x; cbn [update List.length]; try reflexivity.
  rewrite IH. reflexivity.
Qed.

Lemma nth_error_update {A} (l : list A) : forall k j x,
  (k < List.length l)%nat ->
  nth_error (update l k x) j = if Nat.eqb k j then Some x else nth_error l j.
Proof.
  induction l as [|y l IH]; intros k j x Hk; [cbn in Hk; lia|].
  destruct k as [|k], j as [|j]; cbn [update nth_error Nat.eqb]; try reflexivity.
  apply IH. cbn in Hk. lia.
Qed.

Lemma update_perm {A} (l : list A) : forall k x y,
  nth_error l k = Some y -> Permutation (x :: l) (y :: update l k x).
Proof.
  induction l as [|z l IH]; intros [|k] x y Hy; cbn [nth_error update] in *; try discriminate.
  - injection Hy as ->. apply perm_swap.
  - eapply perm_trans; [apply perm_swap|].
    eapply perm_trans; [apply perm_skip, (IH k x y Hy)|]. apply perm_swap.
Qed.

Section QuizProperties.
Context `{RandomSource}.

Lemma swap_perm {A} (x : list A) i j :
  0 <= i < len x -> 0 <= j < len x ->
  exists x', swap x i j = Some x' /\ Permutation x x'.
Proof.
  intros Hi Hj. unfold swap.
  rewrite (getitem_nonneg x j Hj), (getitem_nonneg x i Hi).
  assert (Hni : (Z.to_nat i < List.length x)%nat) by (unfold len in Hi; lia).
  assert (Hnj : (Z.to_nat j < List.length x)%nat) by (unfold len in Hj; lia).
  destruct (nth_error x (Z.to_nat j)) as [xj|] eqn:Ej;
    [|apply nth_error_None in Ej; lia].
  destruct (nth_error x (Z.to_nat i)) as [xi|] eqn:Ei;
    [|apply nth_error_None in Ei; lia].
  rewrite (setitem_nonneg x i xj Hi).
  rewrite setitem_nonneg by (unfold len in *; rewrite update_length; lia).
  eexists. split; [reflexivity|].
  apply (Permutation_cons_inv (a:=xj)).
  eapply perm_trans; [apply (update_perm x (Z.to_nat i) xj xi Ei)|].
  apply update_perm.
  rewrite nth_error_update by exact Hni.
  destruct (Nat.eqb (Z.to_nat i) (Z.to_nat j)); [reflexivity | exact Ej].
Qed.

Lemma shuffle_loop_perm {A} i : forall (x : list A) g,
  (i < List.length x)%nat \/ i = O ->
  exists x' g', shuffle_loop i x g = Some (x', g') /\ Permutation x x'.
Proof.
  induction i as [|i IH]; intros x g Hi.
  - exists x, g. split; [reflexivity | apply Permutation_refl].
  - destruct Hi as [Hi|Hi]; [|discriminate].
    cbn [shuffle_loop].
    pose proof (randbelow_range (Z.of_nat (S i) + 1) g ltac:(lia)) as Hj.
    destruct (swap_perm x (Z.of_nat (S i)) (fst (randbelow (Z.of_nat (S i) + 1) g)))
      as [x1 [-> Hp]]; [unfold len; lia | unfold len; lia |].
    destruct (IH x1 (snd (randbelow (Z.of_nat (S i) + 1) g))) as [x' [g' [-> Hp']]].
    + left. rewrite <- (Permutation_length Hp). lia.
    + exists x', g'. split; [reflexivity | exact (perm_trans Hp Hp')].
Qed.

Lemma shuffle_perm {A} (x : list A) g :
  exists x' g', shuffle x g = Some (x', g') /\ Permutation x x'.
Proof.
  unfold shuffle. apply shuffle_loop_perm.
  destruct x; cbn [List.length]; [right; reflexivity | left; lia].
Qed.

Lemma index_first l x :
  In x l ->
  exists k, index l x = Some k /\ 0 <= k < len l /\ getitem l k = Some x /\
            forall k', 0 <= k' < k -> getitem l k' <> Some x.
Proof.
  induction l as [|y l IH]; intros Hx; [destruct Hx|].
  cbn [index]. destruct (str_eqb y x) eqn:E.
  - apply str_eqb_eq in E. subst y. exists 0. split; [reflexivity|].
    split; [unfold len; cbn [List.length]; lia|]. split; [reflexivity|]. intros k' Hk'. lia.
  - assert (Hx' : In x l).
    { destruct Hx as [Hx|Hx]; [|exact Hx]. subst y.
      assert (Ht : str_eqb x x = true) by (apply str_eqb_eq; reflexivity). congruence. }
    destruct (IH Hx') as [k [-> [Hk [Hg Hf]]]]. exists (Z.succ k).
    split; [reflexivity|]. unfold len in *. cbn [List.length].
    split; [lia|]. split.
    + rewrite getitem_nonneg by (unfold len; cbn [List.length]; lia).
      rewrite getitem_nonneg in Hg by (unfold len; lia).
      replace (Z.to_nat (Z.succ k)) with (S (Z.to_nat k)) by lia. exact Hg.
    + intros k' Hk'. rewrite getitem_nonneg by (unfold len; cbn [List.length]; lia).
      destruct (Z.eq_dec k' 0) as [->|Hz].
      * cbn. intros E'. injection E' as ->.
        assert (Ht : str_eqb x x = true) by (apply str_eqb_eq; reflexivity). congruence.
      * replace (Z.to_nat k') with (S (Z.to_nat (k' - 1))) by lia. cbn [nth_error].
        specialize (Hf (k' - 1) ltac:(lia)).
        rewrite getitem_nonneg in Hf by (unfold len; lia). exact Hf.
Qed.

Lemma getitem_In {A} (l : list A) i x : getitem l i = Some x -> In x l.
Proof.
  unfold getitem. destruct (position (List.length l) i) as [k|]; [|discriminate].
  apply nth_error_In.
Qed.

Lemma make_item_tracks t g :
  answerable t = true ->
  exists it g', make_item t g = Some (it, g') /\ tracks t it.
Proof.
  unfold answerable, make_item. intros Ha.
  destruct (getitem (QuizTemplate.options t) (QuizTemplate.a t)) as [text|] eqn:Et; [|discriminate].
  destruct (shuffle_perm (QuizTemplate.options t) g) as [opts [g' [-> Hp]]].
  cbn [fst snd].
  destruct (index_first opts text) as [k [-> [Hk [Hg Hf]]]].
  { apply (Permutation_in _ Hp). exact (getitem_In _ _ _ Et). }
  eexists. eexists. split; [reflexivity|].
  unfold tracks. cbn [QuizItem.question QuizItem.explanation QuizItem.options QuizItem.correct_index].
  split; [reflexivity|]. split; [reflexivity|]. split; [exact Hp|].
  exists text. split; [exact Et|]. split; [exact Hg | exact Hf].
Qed.

Lemma make_items_track pool : forall g,
  forallb answerable pool = true ->
  exists items g', make_items pool g = Some (items, g') /\ Forall2 tracks pool items.
Proof.
  induction pool as [|t pool IH]; intros g Hp.
  - exists [], g. split; [reflexivity | constructor].
  - cbn [forallb] in Hp. apply andb_true_iff in Hp. destruct Hp as [Ht Hp].
    cbn [make_items].
    destruct (make_item_tracks t g Ht) as [it [g1 [-> Hit]]]. cbn [fst snd].
    destruct (IH g1 Hp) as [items [g' [-> Hitems]]]. cbn [fst snd].
    eexists. eexists. split; [reflexivity|]. constructor; assumption.
Qed.


Lemma dict_get_In {V} (d : list (str * V)) k v : dict_get d k = Some v -> In v (map snd d).
Proof.
  induction d as [|[k' v'] d IH]; cbn [dict_get map snd]; [discriminate|].
  destruct (str_eqb k' k); [intros E; injection E as ->; left; reflexivity|].
  intros E. right. exact (IH E).
Qed.

Lemma quiz_bank_answerable : forallb (forallb answerable) (map snd QUIZ_BANK) = true.
Proof. vm_compute. reflexivity. Qed.

Lemma fallback_bank_answerable topic : forallb answerable (fallback_bank topic) = true.
Proof. reflexivity. Qed.

Lemma bank_of_answerable topic : forallb answerable (bank_of topic) = true.
Proof.
  unfold bank_of. destruct (dict_get QUIZ_BANK topic) as [[|t r]|] eqn:E;
    try apply fallback_bank_answerable.
  pose proof quiz_bank_answerable as Hq. rewrite forallb_forall in Hq.
  exact (Hq _ (dict_get_In _ _ _ E)).
Qed.

Lemma bank_of_nonempty topic : 1 <= len (bank_of topic).
Proof.
  unfold bank_of, len, fallback_bank. destruct (dict_get QUIZ_BANK topic) as [[|t r]|];
    cbn [List.length]; lia.
Qed.

Lemma bank_of_miss topic : dict_get QUIZ_BANK topic = None -> bank_of topic = fallback_bank topic.
Proof. unfold bank_of. intros ->. reflexivity. Qed.

Lemma times_length {A} (l : list A) n :
  List.length (times l n) = (List.length l * Z.to_nat n)%nat.
Proof.
  unfold times. induction (Z.to_nat n) as [|k IH]; cbn [repeat List.concat List.length]; [lia|].
  rewrite length_app, IH. lia.
Qed.

Lemma times_In {A} (l : list A) n x : In x (times l n) -> In x l.
Proof.
  unfold times. induction (Z.to_nat n) as [|k IH]; cbn [repeat List.concat]; [intros []|].
  intros Hx. apply in_app_or in Hx. destruct Hx as [Hx|Hx]; [exact Hx | exact (IH Hx)].
Qed.

Lemma clamp_count_range c : 1 <= clamp_count c <= 10.
Proof. unfold clamp_count. destruct (c =? 0); lia. Qed.

Lemma clamp_count_inside c : 1 <= c <= 10 -> clamp_count c = c.
Proof. intros Hc. unfold clamp_count. destruct (c =? 0) eqn:E; [apply Z.eqb_eq in E|]; lia. Qed.

Lemma pool_covers n c : 1 <= n -> 1 <= c -> c <= n * ((c + n - 1) / n).
Proof.
  intros Hn Hc. pose proof (Z.mul_succ_div_gt (c + n - 1) n ltac:(lia)) as Hd.
  rewrite Z.mul_succ_r in Hd. lia.
Qed.

(** The generator always answers: as many items as the clamped count, each
    derived from a template of the topic's bank. *)
Lemma generate_quiz_items topic count g :
  exists items g' pool,
    generate_quiz topic count g = Some (items, g') /\
    len items = clamp_count count /\
    Forall2 tracks pool items /\
    incl pool (bank_of (strip topic)).
Proof.
  unfold generate_quiz.
  pose proof (bank_of_nonempty (strip topic)) as Hn.
  pose proof (clamp_count_range count) as Hc.
  set (bank := bank_of (strip topic)) in *. set (c := clamp_count count) in *.
  unfold floordiv. destruct (len bank =? 0) eqn:E; [apply Z.eqb_eq in E; lia|].
  destruct (shuffle_perm (times bank ((c + len bank - 1) / len bank)) g) as [pool [g1 [-> Hp]]].
  cbn [fst snd].
  assert (Hin : incl (firstn (Z.to_nat c) pool) bank).
  { intros t Ht. apply (times_In bank ((c + len bank - 1) / len bank)).
    apply (Permutation_in _ (Permutation_sym Hp)).
    rewrite <- (firstn_skipn (Z.to_nat c) pool). apply in_or_app. left. exact Ht. }
  destruct (make_items_track (firstn (Z.to_nat c) pool) g1) as [items [g' [-> Hit]]].
  { apply forallb_forall. intros t Ht.
    pose proof (bank_of_answerable (strip topic)) as Hb. rewrite forallb_forall in Hb.
    apply Hb, Hin, Ht. }
  exists items, g', (firstn (Z.to_nat c) pool).
  split; [reflexivity|]. split; [|split; [exact Hit | exact Hin]].
  unfold len. rewrite <- (Forall2_length Hit), length_firstn.
  rewrite <- (Permutation_length Hp), times_length.
  pose proof (pool_covers (len bank) c Hn ltac:(lia)) as Hcov.
  assert (Hr : 0 <= (c + len bank - 1) / len bank) by (apply Z.div_pos; lia).
  unfold len in *. nia.
Qed.

Lemma Forall2_tracked pool items bank :
  Forall2 tracks pool items -> incl pool bank ->
  Forall (fun it => exists t, In t bank /\ tracks t it) items.
Proof.
  induction 1 as [|t it pool items Ht _ IH]; intros Hin; constructor.
  - exists t. split; [apply Hin; left; reflexivity | exact Ht].
  - apply IH. intros x Hx. apply Hin. right. exact Hx.
Qed.

(** C3.  Whatever the random source draws, the generator
    returns, and every item it returns tracks a template of the bank: its
    options are the template's in some order, [options[correct_index]] is
    the text the template marks as correct, and no earlier option holds that
    text ([correct_index] is its first occurrence). *)
Theorem quiz_items_track_templates topic count g :
  exists items g',
    generate_quiz topic count g = Some (items, g') /\
    Forall (fun it => exists t, In t (bank_of (strip topic)) /\ tracks t it) items.
Proof.
  destruct (generate_quiz_items topic count g) as [items [g' [pool [Hg [_ [Ht Hin]]]]]].
  exists items, g'. split; [exact Hg | exact (Forall2_tracked _ _ _ Ht Hin)].
Qed.

(** C4.  For every topic and every count in [1,10] the
    generator returns exactly count items; when the topic is not in the quiz
    bank, each of them tracks one of the two templates of the default list
    (the same template may serve several items). *)
Theorem quiz_returns_count_items topic count g :
  1 <= count <= 10 ->
  exists items g',
    generate_quiz topic count g = Some (items, g') /\
    len items = count /\
    (dict_get QUIZ_BANK (strip topic) = None ->
     List.length (fallback_bank (strip topic)) = 2%nat /\
     Forall (fun it => exists t, In t (fallback_bank (strip topic)) /\ tracks t it) items).
Proof.
  intros Hc.
  destruct (generate_quiz_items topic count g) as [items [g' [pool [Hg [Hl [Ht Hin]]]]]].
  exists items, g'. split; [exact Hg|]. split; [rewrite Hl; apply clamp_count_inside, Hc|].
  intros Hmiss. split; [reflexivity|].
  rewrite <- (bank_of_miss _ Hmiss). exact (Forall2_tracked _ _ _ Ht Hin).
Qed.

(** C2.  For every count outside [1,10] the generator returns 1
    item when the count is negative, 10 items when it exceeds 10, and 5
    items when it is 0: [req.count or 5] replaces a zero count by the
    default before the clamp. *)
Theorem quiz_count_clamped topic count g :
  count < 1 \/ 10 < count ->
  exists items g',
    generate_quiz topic count g = Some (items, g') /\
    len items = (if count =? 0 then 5 else if count <? 1 then 1 else 10).
Proof.
  intros Hc.
  destruct (generate_quiz_items topic count g) as [items [g' [pool [Hg [Hl _]]]]].
  exists items, g'. split; [exact Hg|]. rewrite Hl. unfold clamp_count.
  destruct (count =? 0) eqn:E0; [reflexivity|]. apply Z.eqb_neq in E0.
  destruct (count <? 1) eqn:E1; [apply Z.ltb_lt in E1 | apply Z.ltb_ge in E1]; lia.
Qed.

End QuizProperties.

(** A request with count 0 gets five items, not one. *)
Lemma quiz_count_zero :
  exists items g',
    generate_quiz (H:=lcg) (py "Ionic Bonding") 0 1 = Some (items, g') /\
    len items = 5 /\ len items <> 1.
Proof.
  eexists. eexists. split; [vm_compute; reflexivity|]. split; [vm_compute; reflexivity|].
  vm_compute. discriminate.
Qed.

Lemma quiz_count_clamped_99 :
  exists items g',
    generate_quiz (H:=lcg) (py "Ionic Bonding") 99 1 = Some (items, g') /\ len items = 10.
Proof. apply (quiz_count_clamped (H:=lcg) (py "Ionic Bonding") 99 1). right. lia. Defined.

Lemma quiz_returns_three :
  exists items g',
    generate_quiz (H:=lcg) (py "Nonexistent") 3 7 = Some (items, g') /\ len items = 3.
Proof.
  destruct (quiz_returns_count_items (H:=lcg) (py "Nonexistent") 3 7) as [items [g' [Hg [Hl _]]]];
    [lia|].
  exists items, g'. split; assumption.
Defined.

(** * Further properties *)

Local Open Scope N_scope.

(** ** Stripping *)

Lemma lstrip_spaces pre s : forallb is_space pre = true -> lstrip (pre ++ s) = lstrip s.
Proof.
  induction pre as [|c pre IH]; intros Hp; [reflexivity|].
  cbn [forallb] in Hp. apply andb_true_iff in Hp. destruct Hp as [Hc Hp].
  cbn [app lstrip]. rewrite Hc. exact (IH Hp).
Qed.

Lemma lstrip_all_space s : forallb is_space s = true -> lstrip s = [].
Proof. intros Hs. rewrite <- (app_nil_r s). rewrite lstrip_spaces by exact Hs. reflexivity. Qed.

Lemma forallb_rev {A} (f : A -> bool) l : forallb f (rev l) = forallb f l.
Proof.
  induction l as [|x l IH]; [reflexivity|].
  cbn [rev forallb]. rewrite forallb_app, IH. cbn [forallb]. rewrite andb_true_r. apply andb_comm.
Qed.

Lemma rstrip_spaces s post : forallb is_space post = true -> rstrip (s ++ post) = rstrip s.
Proof.
  intros Hp. unfold rstrip. rewrite rev_app_distr, lstrip_spaces; [reflexivity|].
  rewrite forallb_rev. exact Hp.
Qed.

Lemma strip_spaces pre s post :
  forallb is_space pre = true -> forallb is_space post = true ->
  strip (pre ++ s ++ post) = strip s.
Proof.
  intros Hpre Hpost. unfold strip. rewrite (lstrip_spaces pre _ Hpre).
  destruct (lstrip s) as [|c r] eqn:E.
  - assert (Hs : lstrip (s ++ post) = []).
    { clear Hpre. induction s as [|d s IH]; [exact (lstrip_all_space post Hpost)|].
      cbn [app lstrip] in *. destruct (is_space d); [exact (IH E) | discriminate]. }
    rewrite Hs. reflexivity.
  - rewrite lstrip_app by (rewrite E; discriminate). rewrite E.
    apply rstrip_spaces. exact Hpost.
Qed.

Lemma lstrip_map f s :
  (forall c, is_space (f c) = is_space c) -> lstrip (map f s) = map f (lstrip s).
Proof.
  intros Hf. induction s as [|c s IH]; [reflexivity|].
  cbn [map lstrip]. rewrite Hf. destruct (is_space c); [exact IH | reflexivity].
Qed.

Lemma strip_map f s :
  (forall c, is_space (f c) = is_space c) -> strip (map f s) = map f (strip s).
Proof.
  intros Hf. unfold strip, rstrip.
  rewrite (lstrip_map f s Hf), <- map_rev, (lstrip_map f _ Hf), map_rev. reflexivity.
Qed.

Lemma forallb_lstrip (P : N -> bool) s : forallb P s = true -> forallb P (lstrip s) = true.
Proof.
  induction s as [|c s IH]; intros Hs; [reflexivity|].
  cbn [lstrip]. destruct (is_space c); [|exact Hs].
  cbn [forallb] in Hs. apply andb_true_iff in Hs. apply IH, Hs.
Qed.

Lemma forallb_strip (P : N -> bool) s : forallb P s = true -> forallb P (strip s) = true.
Proof.
  intros Hs. unfold strip, rstrip. rewrite forallb_rev. apply forallb_lstrip.
  rewrite forallb_rev. apply forallb_lstrip, Hs.
Qed.

Lemma is_space_lower c : is_space (ascii_lower c) = is_space c.
Proof.
  unfold ascii_lower. destruct ((65 <=? c) && (c <=? 90)) eqn:E; [|reflexivity].
  bool_to_prop. unfold is_space.
  repeat match goal with
  | |- context [?a <=? ?b] => let E := fresh in destruct (a <=? b) eqn:E; bool_to_prop; try lia
  | |- context [?a =? ?b] => let E := fresh in destruct (a =? b) eqn:E; bool_to_prop; try lia
  end; reflexivity.
Qed.

Lemma find_first {A} (f : A -> bool) l x : find f l = Some x <-> first_match f l x.
Proof.
  unfold first_match. split.
  - revert x. induction l as [|y l IH]; intros x Hf; [discriminate|].
    cbn [find] in Hf. destruct (f y) eqn:E.
    + injection Hf as ->. exists [], l. repeat split; [exact E | constructor].
    + destruct (IH x Hf) as [l1 [l2 [-> [Hx Hl]]]]. exists (y :: l1), l2.
      repeat split; [exact Hx | constructor; assumption].
  - intros [l1 [l2 [-> [Hx Hl]]]]. induction Hl as [|y l1 Hy _ IH]; cbn [app find].
    + rewrite Hx. reflexivity.
    + rewrite Hy. exact IH.
Qed.

Lemma find_none_all {A} (f : A -> bool) l : find f l = None <-> Forall (fun y => f y = false) l.
Proof.
  split.
  - intros Hf. apply Forall_forall. intros y Hy. exact (find_none f l Hf y Hy).
  - induction 1 as [|y l Hy _ IH]; [reflexivity|]. cbn [find]. rewrite Hy. exact IH.
Qed.

Section ChatMore.
Context `{Casing}.

(** X1.  The order of precedence of the chat responder: the first record
    of the molecule table whose key or name occurs in the normalised message
    decides the reply; if none does, the first glossary keyword occurring in
    it does; if none does either, the three query phrases choose between the
    help text and the generic prompt. *)
Theorem chat_priority message :
  (forall key data,
     first_match (molecule_matches (lower (strip message))) MOLECULE_DB (key, data) ->
     chat message = molecule_reply key data) /\
  (Forall (fun kd => molecule_matches (lower (strip message)) kd = false) MOLECULE_DB ->
   (forall term desc,
      first_match (fun td => str_in (fst td) (lower (strip message))) concepts (term, desc) ->
      chat message = desc) /\
   (Forall (fun td => str_in (fst td) (lower (strip message)) = false) concepts ->
    chat message =
      if str_in (py "what is") (lower (strip message))
         || str_in (py "explain") (lower (strip message))
         || str_in (py "define") (lower (strip message))
      then help_reply else generic_reply)).
Proof.
  unfold chat. cbv zeta. split.
  - intros key data Hm. apply find_first in Hm. rewrite Hm. reflexivity.
  - intros Hnone. apply find_none_all in Hnone. rewrite Hnone. split.
    + intros term desc Hc. apply find_first in Hc. rewrite Hc. reflexivity.
    + intros Hnc. apply find_none_all in Hnc. rewrite Hnc. reflexivity.
Qed.

Lemma concepts_nonempty : forallb (fun td => negb (str_eqb (snd td) [])) concepts = true.
Proof. vm_compute. reflexivity. Qed.

Lemma molecule_reply_nonempty key data : molecule_reply key data <> [].
Proof.
  unfold molecule_reply. intros E. apply app_eq_nil in E. destruct E as [_ E].
  apply app_eq_nil in E. destruct E as [E _]. revert E. vm_compute. discriminate.
Qed.

(** X2.  Every message gets a reply that is not the empty string. *)
Theorem chat_reply_nonempty message : chat message <> [].
Proof.
  unfold chat. cbv zeta.
  destruct (find _ MOLECULE_DB) as [[key data]|]; [apply molecule_reply_nonempty|].
  destruct (find _ concepts) as [[term desc]|] eqn:E.
  - apply find_some in E. destruct E as [Hin _].
    pose proof concepts_nonempty as Hc. rewrite forallb_forall in Hc.
    specialize (Hc _ Hin). cbn [snd] in Hc. intros ->. discriminate.
  - destruct (_ || _); vm_compute; discriminate.
Qed.

(** X3.  When the first matching record has a bond angle, the reply begins
    with "Molecule: " and the key, and contains the bond classification, the
    angle followed by the degree sign, and the explanation. *)
Theorem chat_reply_parts message key data angle :
  find (molecule_matches (lower (strip message))) MOLECULE_DB = Some (key, data) ->
  DB.bond_angle data = Some angle ->
  starts_with (py "Molecule: " ++ key) (chat message) = true /\
  str_in (DB.bond_type data) (chat message) = true /\
  str_in (str_of_float angle ++ py "°") (chat message) = true /\
  str_in (DB.explanation data) (chat message) = true.
Proof.
  intros Hf Ha. rewrite (chat_reply_with_angle _ _ _ _ Hf Ha).
  split; [|split; [|split]].
  - rewrite (app_assoc (py "Molecule: ") key). apply starts_with_app.
  - rewrite !(app_assoc _ _ (DB.bond_type data ++ _)).
    apply str_in_app.
  - set (a := str_of_float angle).
    repeat rewrite (app_assoc _ _ (a ++ _)). rewrite (app_assoc a (py "°")).
    apply str_in_app.
  - set (e := DB.explanation data).
    repeat rewrite (app_assoc _ _ (e)). rewrite <- (app_nil_r e) at 2.
    apply str_in_app.
Qed.

(** X4.  Whitespace before and after the message does not change the
    reply. *)
Theorem chat_ignores_outer_space pre message post :
  forallb is_space pre = true -> forallb is_space post = true ->
  chat (pre ++ message ++ post) = chat message.
Proof.
  intros Hpre Hpost. unfold chat. rewrite (strip_spaces pre message post Hpre Hpost).
  reflexivity.
Qed.

(** X5.  Two ASCII messages that differ only in the case of their letters
    get the same reply. *)
Theorem chat_ignores_ascii_case m1 m2 :
  forallb is_ascii m1 = true -> forallb is_ascii m2 = true ->
  map ascii_lower m1 = map ascii_lower m2 ->
  chat m1 = chat m2.
Proof.
  intros H1 H2 He. unfold chat.
  rewrite (lower_ascii _ (forallb_strip _ _ H1)), (lower_ascii _ (forallb_strip _ _ H2)).
  rewrite <- !(strip_map ascii_lower _ is_space_lower), He. reflexivity.
Qed.

End ChatMore.

Lemma chat_reply_parts_h2o :
  starts_with (py "Molecule: " ++ py "H2O") (chat (H:=ascii_casing) (py "Why is H2O polar?")) = true /\
  str_in (py "Polar covalent") (chat (H:=ascii_casing) (py "Why is H2O polar?")) = true.
Proof.
  destruct (chat_reply_parts (H:=ascii_casing) (py "Why is H2O polar?") (py "H2O")
              {| DB.name := py "Water";
                 DB.bond_type := py "Polar covalent";
                 DB.bond_angle := Some 104.5%Q;
                 DB.single_bonds := 2;
                 DB.double_bonds := 0;
                 DB.shape := py "Bent (V-shaped)";
                 DB.lewis := py "H–O–H with two lone pairs on oxygen";
                 DB.lewis_text := py "Lewis Structure of H2O: Oxygen in the center with two single bonds to H and two lone pairs on O.";
                 DB.explanation := py "Oxygen forms two polar covalent bonds with hydrogen. Lone pairs on O push bonds, giving a bent shape and polarity.";
                 DB.lewis_ascii := py "H :O: H\n   .. .." |} 104.5%Q)
    as [Hs [Hb _]]; [vm_compute; reflexivity | vm_compute; reflexivity |].
  split; [exact Hs | exact Hb].
Defined.

Lemma chat_ignores_outer_space_example :
  chat (H:=ascii_casing) (py "  nacl\n") = chat (H:=ascii_casing) (py "nacl").
Proof.
  apply (chat_ignores_outer_space (H:=ascii_casing) (py "  ") (py "nacl") (py "\n"));
    vm_compute; reflexivity.
Defined.

Lemma chat_ignores_ascii_case_example :
  chat (H:=ascii_casing) (py "EXPLAIN Ionic") = chat (H:=ascii_casing) (py "explain ionic").
Proof.
  apply (chat_ignores_ascii_case (H:=ascii_casing)); vm_compute; reflexivity.
Defined.

(** ** The renderer, further *)

Lemma valid_text_cons c s : valid_text (c :: s) = is_scalar c && valid_text s.
Proof. reflexivity. Qed.

Lemma escape_valid_inv line :
  valid_text (flat_map escape_char line) = true -> valid_text line = true.
Proof.
  induction line as [|c line IH]; [reflexivity|].
  cbn [flat_map]. rewrite valid_text_app, valid_text_cons. intros Hv.
  apply andb_true_iff in Hv. destruct Hv as [Hc Hl]. rewrite (IH Hl), andb_true_r.
  unfold escape_char in Hc.
  destruct (c =? 38) eqn:E1; [apply N.eqb_eq in E1; subst c; reflexivity|].
  destruct (c =? 60) eqn:E2; [apply N.eqb_eq in E2; subst c; reflexivity|].
  destruct (c =? 62) eqn:E3; [apply N.eqb_eq in E3; subst c; reflexivity|].
  cbn in Hc. rewrite andb_true_r in Hc. exact Hc.
Qed.

Lemma valid_app_inv s t : valid_text (s ++ t) = true -> valid_text s = true /\ valid_text t = true.
Proof. rewrite valid_text_app. apply andb_true_iff. Qed.

Ltac valid_tail H := apply valid_app_inv in H; destruct H as [_ H].

Lemma text_line_valid_inv k line : valid_text (text_line k line) = true -> valid_text line = true.
Proof.
  unfold text_line. intros Hv. do 3 valid_tail Hv.
  apply valid_app_inv in Hv. destruct Hv as [Hv _]. exact (escape_valid_inv _ Hv).
Qed.

Lemma rows_valid_inv lines : forall k,
  valid_text (List.concat (map (fun kl => text_line (fst kl) (snd kl))
                               (combine (seq k (List.length lines)) lines))) = true ->
  Forall (fun l => valid_text l = true) lines.
Proof.
  induction lines as [|l r IH]; intros k Hv; [constructor|].
  cbn [List.length seq combine map List.concat fst snd] in Hv.
  rewrite valid_text_app in Hv. apply andb_true_iff in Hv. destruct Hv as [Hl Hr].
  constructor; [exact (text_line_valid_inv _ _ Hl) | exact (IH _ Hr)].
Qed.

Lemma markup_valid_inv lines :
  valid_text (markup lines) = true -> Forall (fun l => valid_text l = true) lines.
Proof.
  unfold markup. cbv zeta. intros Hv. do 9 valid_tail Hv.
  apply valid_app_inv in Hv. destruct Hv as [Hv _]. exact (rows_valid_inv _ _ Hv).
Qed.

Lemma join_valid lines : Forall (fun l => valid_text l = true) lines -> valid_text (join_nl lines) = true.
Proof.
  intros Hl. destruct Hl as [|l r Hl Hr]; [reflexivity|].
  cbn [join_nl]. rewrite valid_text_app, Hl. cbn [andb].
  induction Hr as [|x r Hx _ IH]; [reflexivity|].
  cbn [flat_map]. change (valid_text ((10 :: x) ++ flat_map (fun x0 => 10 :: x0) r) = true).
  rewrite valid_text_app, valid_text_cons, Hx, IH. reflexivity.
Qed.

(** X6.  The renderer raises exactly when its ASCII art holds a code point
    UTF-8 cannot encode (a lone surrogate); on any other input it returns. *)
Theorem make_lewis_svg_fails_iff label art :
  make_lewis_svg label art = None <-> valid_text art = false.
Proof.
  split.
  - intros Hn. destruct (valid_text art) eqn:Hv; [|reflexivity].
    destruct (render_valid label art Hv) as [data [_ Hs]]. congruence.
  - intros Hv. rewrite make_lewis_svg_eq.
    destruct (encode_utf8 (markup (split_on 10 art))) as [data|] eqn:E; [|reflexivity].
    apply encode_utf8_only_valid, markup_valid_inv, join_valid in E.
    rewrite join_split in E. congruence.
Qed.

(** *** Escaping *)

Lemma in_escape c x : In x (escape_char c) -> x <> 60 /\ x <> 62.
Proof.
  unfold escape_char.
  destruct (c =? 38) eqn:E1;
    [|destruct (c =? 60) eqn:E2; [|destruct (c =? 62) eqn:E3]].
  1-3: intros Hx; revert x Hx; apply Forall_forall; vm_compute;
       repeat constructor; discriminate.
  intros [<-|[]]. bool_to_prop. split; assumption.
Qed.

(** X7.  An escaped line holds neither [<] nor [>]: the text of a line
    cannot open or close a tag of the document. *)
Theorem esc_no_angle_bracket line : ~ In 60 (esc line) /\ ~ In 62 (esc line).
Proof.
  rewrite esc_escape. split; intros Hx; apply in_flat_map in Hx;
    destruct Hx as [c [_ Hx]]; apply in_escape in Hx; destruct Hx; congruence.
Qed.

Lemma amp_entity : py "&amp;" = [38; 97; 109; 112; 59].
Proof. vm_compute. reflexivity. Qed.
Lemma lt_entity : py "&lt;" = [38; 108; 116; 59].
Proof. vm_compute. reflexivity. Qed.
Lemma gt_entity : py "&gt;" = [38; 103; 116; 59].
Proof. vm_compute. reflexivity. Qed.

Lemma escape_cases c :
  (c = 38 /\ escape_char c = [38; 97; 109; 112; 59]) \/
  (c = 60 /\ escape_char c = [38; 108; 116; 59]) \/
  (c = 62 /\ escape_char c = [38; 103; 116; 59]) \/
  (c <> 38 /\ c <> 60 /\ c <> 62 /\ escape_char c = [c]).
Proof.
  unfold escape_char. rewrite amp_entity, lt_entity, gt_entity.
  destruct (c =? 38) eqn:E1; [apply N.eqb_eq in E1; auto|].
  destruct (c =? 60) eqn:E2; [apply N.eqb_eq in E2; auto|].
  destruct (c =? 62) eqn:E3; [apply N.eqb_eq in E3; auto 6|].
  bool_to_prop. auto 10.
Qed.

(** X8.  Escaping is injective: two lines with the same escaped text are
    the same line. *)
Theorem esc_injective l1 : forall l2, esc l1 = esc l2 -> l1 = l2.
Proof.
  setoid_rewrite esc_escape.
  induction l1 as [|c1 l1 IH]; intros [|c2 l2] He.
  - reflexivity.
  - exfalso. cbn [flat_map] in He.
    destruct (escape_cases c2) as [[_ E]|[[_ E]|[[_ E]|[_ [_ [_ E]]]]]];
      rewrite E in He; discriminate.
  - exfalso. cbn [flat_map] in He.
    destruct (escape_cases c1) as [[_ E]|[[_ E]|[[_ E]|[_ [_ [_ E]]]]]];
      rewrite E in He; discriminate.
  - cbn [flat_map] in He.
    destruct (escape_cases c1) as [[-> E1]|[[-> E1]|[[-> E1]|[? [? [? E1]]]]]];
    destruct (escape_cases c2) as [[-> E2]|[[-> E2]|[[-> E2]|[? [? [? E2]]]]]];
      rewrite ?E1, ?E2 in He; cbn [app] in He;
      try (injection He as He; f_equal; apply IH; exact He);
      try (injection He; intros; subst; congruence);
      try discriminate.
    injection He as -> He. f_equal. apply IH. exact He.
Qed.

Lemma esc_injective_example : py "a<b" = py "a<b".
Proof. apply (esc_injective (py "a<b") (py "a<b")). reflexivity. Defined.

(** *** The shape of the artifact *)

Lemma b64_char_ascii s : is_ascii (b64_char s) = true.
Proof. unfold is_ascii, b64_char. apply N.ltb_lt. repeat split_if. Qed.

Lemma b64encode_ascii_aux n : forall bs, (List.length bs <= n)%nat ->
  forallb is_ascii (b64encode bs) = true /\ (List.length (b64encode bs) mod 4 = 0)%nat.
Proof.
  induction n as [|n IH]; intros bs Hn.
  - destruct bs; [split; reflexivity | cbn in Hn; lia].
  - destruct bs as [|a [|b [|c r]]]; cbn [b64encode forallb List.length];
      rewrite ?b64_char_ascii; try (split; reflexivity).
    destruct (IH r) as [Ha Hl]; [cbn in Hn; lia|]. rewrite Ha. split; [reflexivity|].
    change (S (S (S (S (List.length (b64encode r)))))) with (4 + List.length (b64encode r))%nat.
    rewrite <- Nat.Div0.add_mod_idemp_l. exact Hl.
Qed.

(** X9.  Every artifact is ASCII text: it starts with the data-URI prefix,
    and the rest is base64 in blocks of four characters (the whole has
    length 2 modulo 4, the prefix being 26 long). *)
Theorem make_lewis_svg_ascii label art uri :
  make_lewis_svg label art = Some uri ->
  forallb is_ascii uri = true /\
  starts_with (py "data:image/svg+xml;base64,") uri = true /\
  (List.length uri mod 4 = 2)%nat.
Proof.
  rewrite make_lewis_svg_eq.
  destruct (encode_utf8 (markup (split_on 10 art))) as [data|]; [|discriminate].
  intros Hu. apply Some_eq in Hu. subst uri.
  destruct (b64encode_ascii_aux (List.length data) data (le_n _)) as [Ha Hl].
  rewrite forallb_app, Ha, length_app.
  split; [rewrite andb_true_r; vm_compute; reflexivity|].
  split; [apply starts_with_app|].
  assert (Hp : List.length (py "data:image/svg+xml;base64,") = 26%nat) by (vm_compute; reflexivity).
  rewrite Hp. rewrite <- Nat.Div0.add_mod_idemp_r, Hl. reflexivity.
Qed.

Lemma make_lewis_svg_ascii_example :
  exists uri,
    make_lewis_svg (py "O2") (py "O = O") = Some uri /\ forallb is_ascii uri = true.
Proof.
  eexists. split; [vm_compute; reflexivity|].
  eapply (make_lewis_svg_ascii (py "O2") (py "O = O")). vm_compute. reflexivity.
Defined.

(** *** The canvas *)





(** ** The analyzer, further *)

Lemma molecule_table_valid :
  forallb (fun d => valid_text (DB.lewis_ascii d)) (map snd MOLECULE_DB) = true.
Proof. vm_compute. reflexivity. Qed.

Lemma is_ascii_upper s : forallb is_ascii s = true -> forallb is_ascii (map ascii_upper s) = true.
Proof.
  rewrite !forallb_forall. intros Hs c Hc. apply in_map_iff in Hc. destruct Hc as [d [<- Hd]].
  specialize (Hs d Hd). unfold is_ascii, ascii_upper in *. apply N.ltb_lt in Hs. apply N.ltb_lt.
  destruct ((97 <=? d) && (d <=? 122)) eqn:E; [|exact Hs]. bool_to_prop. lia.
Qed.

Lemma is_ascii_drop s : forallb is_ascii s = true -> forallb is_ascii (drop_spaces s) = true.
Proof.
  rewrite !forallb_forall. intros Hs c Hc. apply filter_In in Hc. apply Hs, Hc.
Qed.

Lemma drop_spaces_upper s : drop_spaces (map ascii_upper s) = map ascii_upper (drop_spaces s).
Proof.
  unfold drop_spaces. induction s as [|c s IH]; [reflexivity|].
  cbn [map filter]. rewrite IH.
  assert (E : (ascii_upper c =? 32) = (c =? 32)).
  { unfold ascii_upper. destruct ((97 <=? c) && (c <=? 122)) eqn:E; [|reflexivity].
    bool_to_prop. transitivity false; [apply N.eqb_neq | symmetry; apply N.eqb_neq]; lia. }
  rewrite E. destruct (c =? 32); reflexivity.
Qed.

Lemma drop_spaces_twice s : drop_spaces (drop_spaces s) = drop_spaces s.
Proof.
  unfold drop_spaces. induction s as [|c s IH]; [reflexivity|].
  cbn [filter]. destruct (c =? 32) eqn:E; cbn [negb filter]; [exact IH|].
  rewrite E. cbn [negb]. rewrite IH. reflexivity.
Qed.

Lemma upper_twice c : ascii_upper (ascii_upper c) = ascii_upper c.
Proof. unfold ascii_upper. repeat split_if; lia. Qed.

Lemma upper_not_lowercase c : ascii_upper c <> 97.
Proof. unfold ascii_upper. split_if; lia. Qed.

Section AnalyzerMore.
Context `{Casing}.

(** X11.  On a hit the analyzer cannot fail: it returns the normalised
    formula, the fields of the record, and the diagram of the record's ASCII
    art. *)
Theorem analyze_molecule_hit s data :
  dict_get MOLECULE_DB (normalize_formula s) = Some data ->
  exists svg,
    make_lewis_svg (normalize_formula s) (DB.lewis_ascii data) = Some svg /\
    analyze_molecule s =
    Some {| formula := normalize_formula s;
            name := Some (DB.name data);
            bond_type := DB.bond_type data;
            bond_angle := DB.bond_angle data;
            single_bonds := DB.single_bonds data;
            double_bonds := DB.double_bonds data;
            shape := Some (DB.shape data);
            explanation := DB.explanation data;
            lewis_text := DB.lewis_text data;
            lewis_ascii := DB.lewis_ascii data;
            lewis_svg := svg |}.
Proof.
  intros Hd. unfold analyze_molecule. rewrite Hd.
  pose proof molecule_table_valid as Hv. rewrite forallb_forall in Hv.
  specialize (Hv data (dict_get_In _ _ _ Hd)).
  destruct (render_valid (normalize_formula s) (DB.lewis_ascii data) Hv) as [bs [_ Hr]].
  rewrite Hr. eexists. split; reflexivity.
Qed.

(** X12.  On ASCII text normalisation is idempotent, and analysing the
    normalised formula gives what analysing the formula gives. *)
Theorem normalize_formula_idempotent s :
  forallb is_ascii s = true ->
  normalize_formula (normalize_formula s) = normalize_formula s /\
  analyze_molecule (normalize_formula s) = analyze_molecule s.
Proof.
  intros Hs.
  assert (E : normalize_formula (normalize_formula s) = normalize_formula s).
  { rewrite (normalize_ascii s Hs).
    rewrite normalize_ascii by (apply is_ascii_upper, is_ascii_drop, Hs).
    rewrite drop_spaces_upper, drop_spaces_twice, map_map.
    apply map_ext. intros c. apply upper_twice. }
  split; [exact E|]. unfold analyze_molecule. rewrite E. reflexivity.
Qed.

Lemma table_name_key :
  forallb (fun kd => negb (str_eqb (DB.name (snd kd)) (py "Sodium chloride"))
                     || str_eqb (fst kd) (py "NaCl")) MOLECULE_DB = true.
Proof. vm_compute. reflexivity. Qed.

Lemma dict_get_In_pair {V} (d : list (str * V)) k v : dict_get d k = Some v -> In (k, v) d.
Proof.
  induction d as [|[k' v'] d IH]; cbn [dict_get]; [discriminate|].
  destruct (str_eqb k' k) eqn:E.
  - apply str_eqb_eq in E. subst k'. intros E'. injection E' as ->. left. reflexivity.
  - intros E'. right. exact (IH E').
Qed.

(** X13.  The record of sodium chloride is out of reach of ASCII formulas:
    its key "NaCl" has lower-case letters and a normalised formula has none,
    so no lookup returns it, and "NaCl" itself gets the heuristic record
    under the formula "NACL". *)
Theorem analyze_never_sodium_chloride :
  (forall s data,
     forallb is_ascii s = true ->
     dict_get MOLECULE_DB (normalize_formula s) = Some data ->
     DB.name data <> py "Sodium chloride") /\
  (exists r, analyze_molecule (py "NaCl") = Some r /\
             formula r = py "NACL" /\ name r = None /\
             bond_type r = py "Covalent (heuristic)").
Proof.
  split.
  - intros s data Hs Hd Hn. apply dict_get_In_pair in Hd.
    pose proof table_name_key as Ht. rewrite forallb_forall in Ht.
    specialize (Ht _ Hd). cbn [fst snd] in Ht. rewrite Hn in Ht.
    assert (Hq : str_eqb (py "Sodium chloride") (py "Sodium chloride") = true)
      by (apply str_eqb_eq; reflexivity).
    rewrite Hq in Ht. cbn [negb orb] in Ht. apply str_eqb_eq in Ht.
    rewrite (normalize_ascii s Hs) in Ht.
    assert (Ha : In 97 (map ascii_upper (drop_spaces s))).
    { rewrite Ht. vm_compute. right. left. reflexivity. }
    apply in_map_iff in Ha. destruct Ha as [c [Hc _]]. exact (upper_not_lowercase c Hc).
  - unfold analyze_molecule. rewrite (normalize_ascii (py "NaCl")) by (vm_compute; reflexivity).
    eexists. split; [vm_compute; reflexivity|]. repeat split; vm_compute; reflexivity.
Qed.

End AnalyzerMore.

Lemma analyze_molecule_hit_co2 :
  exists r,
    analyze_molecule (H:=ascii_casing) (py " co2") = Some r /\
    formula r = py "CO2" /\ shape r = Some (py "Linear").
Proof.
  destruct (analyze_molecule_hit (H:=ascii_casing) (py " co2")
              {| DB.name := py "Carbon dioxide";
                 DB.bond_type := py "Non‑polar covalent (double bonds)";
                 DB.bond_angle := Some 180.0%Q;
                 DB.single_bonds := 0;
                 DB.double_bonds := 2;
                 DB.shape := py "Linear";
                 DB.lewis := py "O=C=O";
                 DB.lewis_text := py "Lewis Structure of CO2: Carbon in center with double bonds to two oxygens (O=C=O).";
                 DB.explanation := py "Two equal C=O bonds arranged linearly cancel dipoles, so the molecule is non‑polar.";
                 DB.lewis_ascii := py "O = C = O" |}) as [svg [_ Hr]];
    [vm_compute; reflexivity|].
  eexists. split; [exact Hr|]. split; vm_compute; reflexivity.
Defined.

Lemma normalize_formula_idempotent_example :
  normalize_formula (H:=ascii_casing) (normalize_formula (H:=ascii_casing) (py " h2 o "))
  = normalize_formula (H:=ascii_casing) (py " h2 o ").
Proof.
  apply (normalize_formula_idempotent (H:=ascii_casing) (py " h2 o ")). vm_compute. reflexivity.
Defined.

Local Open Scope Z_scope.

(** ** The quiz generator, further *)

Lemma distinct_NoDup l : distinct l = true -> NoDup l.
Proof.
  induction l as [|x r IH]; intros Hd; [constructor|].
  cbn [distinct] in Hd. apply andb_true_iff in Hd. destruct Hd as [Hx Hr].
  constructor; [|exact (IH Hr)].
  intros Hin. apply negb_true_iff in Hx.
  assert (Ht : existsb (str_eqb x) r = true).
  { apply existsb_exists. exists x. split; [exact Hin | apply str_eqb_eq; reflexivity]. }
  congruence.
Qed.

Lemma quiz_bank_four_distinct : forallb (forallb four_distinct) (map snd QUIZ_BANK) = true.
Proof. vm_compute. reflexivity. Qed.

Lemma quiz_bank_nonempty :
  forallb (fun b => negb (Nat.eqb (List.length b) 0)) (map snd QUIZ_BANK) = true.
Proof. vm_compute. reflexivity. Qed.

Lemma bank_of_four_distinct topic : forallb four_distinct (bank_of topic) = true.
Proof.
  unfold bank_of. destruct (dict_get QUIZ_BANK topic) as [[|t r]|] eqn:E;
    try (vm_compute; reflexivity).
  pose proof quiz_bank_four_distinct as Hq. rewrite forallb_forall in Hq.
  exact (Hq _ (dict_get_In _ _ _ E)).
Qed.

Lemma bank_of_hit topic bank : dict_get QUIZ_BANK topic = Some bank -> bank_of topic = bank.
Proof.
  intros E. unfold bank_of. rewrite E. destruct bank as [|t r]; [|reflexivity].
  pose proof quiz_bank_nonempty as Hq. rewrite forallb_forall in Hq.
  specialize (Hq _ (dict_get_In _ _ _ E)). discriminate.
Qed.

Lemma count_occ_times (l : list QuizTemplate.t) n t :
  count_occ template_eq_dec (times l n) t
  = (Z.to_nat n * count_occ template_eq_dec l t)%nat.
Proof.
  unfold times. induction (Z.to_nat n) as [|k IH]; [reflexivity|].
  cbn [repeat List.concat]. rewrite count_occ_app, IH. lia.
Qed.

Section QuizMore.
Context `{RandomSource}.

Lemma make_item_range t g it g' :
  make_item t g = Some (it, g') ->
  0 <= QuizItem.correct_index it < len (QuizItem.options it).
Proof.
  unfold make_item.
  destruct (getitem (QuizTemplate.options t) (QuizTemplate.a t)) as [text|]; [|discriminate].
  destruct (shuffle (QuizTemplate.options t) g) as [[opts g1]|]; [|discriminate].
  cbn [fst snd]. destruct (index opts text) as [k|] eqn:Ek; [|discriminate].
  intros E. injection E as <- _. cbn [QuizItem.correct_index QuizItem.options].
  clear -Ek. revert k Ek. induction opts as [|y l IH]; intros k Ek; [discriminate|].
  cbn [index] in Ek. unfold len. cbn [List.length].
  destruct (str_eqb y text); [injection Ek as <-; lia|].
  destruct (index l text) as [k'|]; [|discriminate].
  injection Ek as <-. specialize (IH k' eq_refl). unfold len in IH. lia.
Qed.

Lemma make_items_range pool : forall g items g',
  make_items pool g = Some (items, g') ->
  Forall (fun it => 0 <= QuizItem.correct_index it < len (QuizItem.options it)) items.
Proof.
  induction pool as [|t pool IH]; intros g items g' E; cbn [make_items] in E.
  - injection E as <- _. constructor.
  - destruct (make_item t g) as [[it g1]|] eqn:Ei; [|discriminate]. cbn [fst snd] in E.
    destruct (make_items pool g1) as [[its g2]|] eqn:Er; [|discriminate]. cbn [fst snd] in E.
    injection E as <- _. constructor; [exact (make_item_range _ _ _ _ Ei) | exact (IH _ _ _ Er)].
Qed.

(** What a call draws: a pool that leaves a rest of the copies of the bank. *)
Lemma generate_quiz_draw topic count g :
  exists items g' pool rest,
    generate_quiz topic count g = Some (items, g') /\
    len items = clamp_count count /\
    Forall2 tracks pool items /\
    Forall (fun it => 0 <= QuizItem.correct_index it < len (QuizItem.options it)) items /\
    Permutation (pool ++ rest)
      (times (bank_of (strip topic))
             ((clamp_count count + len (bank_of (strip topic)) - 1)
              / len (bank_of (strip topic)))).
Proof.
  destruct (generate_quiz_items topic count g) as [items [g' [pool0 [Hg [Hl _]]]]].
  revert Hg. unfold generate_quiz.
  pose proof (bank_of_nonempty (strip topic)) as Hn.
  set (bank := bank_of (strip topic)) in *. set (c := clamp_count count) in *.
  unfold floordiv. destruct (len bank =? 0) eqn:E; [apply Z.eqb_eq in E; lia|].
  destruct (shuffle_perm (times bank ((c + len bank - 1) / len bank)) g) as [pool [g1 [-> Hp]]].
  cbn [fst snd]. intros Hg.
  destruct (make_items_track (firstn (Z.to_nat c) pool) g1) as [items1 [g2 [Hm Hit]]].
  { apply forallb_forall. intros t Ht.
    pose proof (bank_of_answerable (strip topic)) as Hb. rewrite forallb_forall in Hb.
    apply Hb. apply (times_In bank ((c + len bank - 1) / len bank)).
    apply (Permutation_in _ (Permutation_sym Hp)).
    rewrite <- (firstn_skipn (Z.to_nat c) pool). apply in_or_app. left. exact Ht. }
  assert (Heq : items1 = items /\ g2 = g') by (rewrite Hm in Hg; injection Hg; auto).
  destruct Heq as [-> ->].
  exists items, g', (firstn (Z.to_nat c) pool), (skipn (Z.to_nat c) pool).
  split; [exact Hm|]. split; [exact Hl|]. split; [exact Hit|].
  split; [exact (make_items_range _ _ _ _ Hm)|].
  rewrite firstn_skipn. apply Permutation_sym, Hp.
Qed.

(** X14.  Whatever count is asked for, the generator returns between one
    and ten items. *)
Theorem quiz_size_bounds topic count g :
  exists items g',
    generate_quiz topic count g = Some (items, g') /\ 1 <= len items <= 10.
Proof.
  destruct (generate_quiz_draw topic count g) as [items [g' [_ [_ [Hg [Hl _]]]]]].
  exists items, g'. split; [exact Hg|]. rewrite Hl. apply clamp_count_range.
Qed.

Lemma tracks_four_distinct t it :
  four_distinct t = true -> tracks t it ->
  len (QuizItem.options it) = 4 /\ NoDup (QuizItem.options it).
Proof.
  intros Hf [_ [_ [Hp _]]]. unfold four_distinct in Hf.
  apply andb_true_iff in Hf. destruct Hf as [Hl Hd]. apply Nat.eqb_eq in Hl.
  split.
  - unfold len. rewrite <- (Permutation_length Hp), Hl. reflexivity.
  - exact (Permutation_NoDup Hp (distinct_NoDup _ Hd)).
Qed.

(** X15.  Every item has four options, all different, and a
    [correct_index] that is one of 0, 1, 2, 3. *)
Theorem quiz_items_sound topic count g :
  exists items g',
    generate_quiz topic count g = Some (items, g') /\
    Forall (fun it =>
              len (QuizItem.options it) = 4 /\
              NoDup (QuizItem.options it) /\
              0 <= QuizItem.correct_index it < 4) items.
Proof.
  destruct (generate_quiz_draw topic count g) as [items [g' [pool [rest [Hg [_ [Ht [Hr Hp]]]]]]]].
  exists items, g'. split; [exact Hg|].
  assert (Hb : Forall (fun t => four_distinct t = true) pool).
  { apply Forall_forall. intros t Hin.
    pose proof (bank_of_four_distinct (strip topic)) as Hf. rewrite forallb_forall in Hf.
    apply Hf. eapply times_In. eapply Permutation_in; [exact Hp|].
    apply in_or_app. left. exact Hin. }
  clear Hg Hp. induction Ht as [|t it pool items Hti _ IH]; [constructor|].
  inversion Hb; subst. inversion Hr; subst.
  destruct (tracks_four_distinct t it H2 Hti) as [Hl Hd].
  constructor; [|apply IH; assumption].
  split; [exact Hl|]. split; [exact Hd|]. rewrite <- Hl. assumption.
Qed.

(** X16.  Templates are drawn without replacement from the copies of the
    bank: no template serves more items than there are copies of it in the
    pool, which is ceil(count / len(bank)) times its number in the bank. *)
Theorem quiz_draw_without_replacement topic count g :
  exists items g' pool,
    generate_quiz topic count g = Some (items, g') /\
    Forall2 tracks pool items /\
    forall t,
      (count_occ template_eq_dec pool t
       <= Z.to_nat ((clamp_count count + len (bank_of (strip topic)) - 1)
                    / len (bank_of (strip topic)))
          * count_occ template_eq_dec (bank_of (strip topic)) t)%nat.
Proof.
  destruct (generate_quiz_draw topic count g) as [items [g' [pool [rest [Hg [_ [Ht [_ Hp]]]]]]]].
  exists items, g', pool. split; [exact Hg|]. split; [exact Ht|]. intros t.
  rewrite <- count_occ_times.
  rewrite <- (proj1 (Permutation_count_occ template_eq_dec _ _) Hp t), count_occ_app. lia.
Qed.

(** X17.  A topic of the quiz bank is served from its own templates,
    never from the default list. *)
Theorem quiz_known_topic topic count g bank :
  dict_get QUIZ_BANK (strip topic) = Some bank ->
  exists items g',
    generate_quiz topic count g = Some (items, g') /\
    Forall (fun it => exists t, In t bank /\ tracks t it) items.
Proof.
  intros Hb.
  destruct (generate_quiz_items topic count g) as [items [g' [pool [Hg [_ [Ht Hin]]]]]].
  exists items, g'. split; [exact Hg|].
  rewrite (bank_of_hit _ _ Hb) in Hin. exact (Forall2_tracked _ _ _ Ht Hin).
Qed.

(** X18.  Whitespace before and after the topic does not change the
    quiz. *)
Theorem quiz_ignores_outer_space pre topic post count g :
  forallb is_space pre = true -> forallb is_space post = true ->
  generate_quiz (pre ++ topic ++ post) count g = generate_quiz topic count g.
Proof.
  intros Hpre Hpost. unfold generate_quiz.
  rewrite (strip_spaces pre topic post Hpre Hpost). reflexivity.
Qed.

End QuizMore.

Lemma quiz_known_topic_example :
  exists items g',
    generate_quiz (H:=lcg) (py "VSEPR Theory") 4 3 = Some (items, g') /\
    Forall (fun it => exists t, In t (bank_of (py "VSEPR Theory")) /\ tracks t it) items.
Proof.
  destruct (quiz_known_topic (H:=lcg) (py "VSEPR Theory") 4 3 (bank_of (py "VSEPR Theory")))
    as [items [g' [Hg Hf]]]; [vm_compute; reflexivity|].
  exists items, g'. split; assumption.
Defined.

Lemma quiz_ignores_outer_space_example :
  generate_quiz (H:=lcg) (py " Ionic Bonding\n") 2 5 = generate_quiz (H:=lcg) (py "Ionic Bonding") 2 5.
Proof.
  apply (quiz_ignores_outer_space (H:=lcg) (py " ") (py "Ionic Bonding") (py "\n"));
    vm_compute; reflexivity.
Defined.
